(** * WlEc2Stack: a Wavelength-zone EC2 deployment, as a resource graph

    The program under study ([src/index.ts]) is one stack declaration
    written against a provisioning toolkit: a constructor that
    instantiates resource constructs one after the other, followed by a
    synthesis step.  This development embeds

    - the construct tree the constructor builds (explicit state passing
      in a state-and-exception monad),
    - the toolkit constructs the declaration instantiates,
    - the declaration itself, statement by statement,

    and proves the structural properties of the synthesized graph.

    The toolkit (the packages [@aws-cdk/core], [@aws-cdk/aws-ec2] and
    [@aws-cdk/aws-iam] that [src/index.ts] imports) is not part of the
    repository.  Its constructs are embedded after their own code,
    reduced to what the declaration can observe: the elements each
    construct adds to the stack, in the order it adds them, the
    properties of those elements that carry addresses, zones, rules or
    references, and the fields of the construct objects the declaration
    reads or writes.  Tags, DNS flags, dependency edges and constructs
    that add no element are left out.

    Three things come from outside the program and are parameters
    throughout: the process environment, the arguments of the
    constructor, and the availability zones the toolkit finds for the
    stack's environment. *)

From stdpp Require Import gmap strings list fin_maps.
From Stdlib Require Import ZArith Ascii DecimalString.

Local Open Scope string_scope.
Local Open Scope Z_scope.

(** ** Results of code that may throw *)

Inductive Result (A : Type) : Type :=
| Ok (a : A)
| Throw (msg : string).
Arguments Ok {A} a.
Arguments Throw {A} msg.

(** ** Construct paths and token values

    The toolkit derives the logical id of every resource from the path of
    its construct in the tree (the ids of its ancestors below the stack,
    then its own).  The embedding keeps the path itself as the identity
    of a resource.  A property value is either a literal or a token that
    stands for an identifier the provider generates at deployment:
    [Ref] for a resource's reference, [GetAtt] for one of its
    attributes. *)

Definition Path : Type := list string.

Inductive Value : Type :=
| Str (s : string)
| Ref (target : Path)
| GetAtt (target : Path) (attr : string).

#[global] Instance Value_eq_dec : EqDecision Value.
Proof. solve_decision. Defined.

(** The resource a value points at, if it is a token. *)
Definition target_of (v : Value) : option Path :=
  match v with
  | Str _ => None
  | Ref p => Some p
  | GetAtt p _ => Some p
  end.

(** ** Address arithmetic of the toolkit ([NetworkUtils], [CidrBlock],
    [NetworkBuilder])

    The declaration hands CIDR strings to the toolkit, which parses them
    and allocates the blocks of the configured subnets. *)

Module NetworkUtils.

(** [s.split(sep)] *)
Fixpoint split_from (sep : ascii) (cur : string) (s : string) : list string :=
  match s with
  | EmptyString => [String.rev cur]
  | String c s' =>
      if Ascii.eqb c sep
      then String.rev cur :: split_from sep EmptyString s'
      else split_from sep (String c cur) s'
  end.

Definition split (sep : ascii) (s : string) : list string :=
  split_from sep EmptyString s.

Definition is_digit (c : ascii) : bool :=
  let n := nat_of_ascii c in (48 <=? n)%nat && (n <=? 57)%nat.

Fixpoint leading_digits (s : string) : string :=
  match s with
  | EmptyString => EmptyString
  | String c s' =>
      if is_digit c then String c (leading_digits s') else EmptyString
  end.

(** [parseInt(s, 10)] on the unsigned numerals that occur in addresses:
    the leading digits are read, [None] stands for [NaN]. *)
Definition parseInt (s : string) : option Z :=
  match leading_digits s with
  | EmptyString => None
  | ds => Z.of_N ∘ N.of_uint <$> NilEmpty.uint_of_string ds
  end.

Definition toString (n : Z) : string :=
  NilZero.string_of_uint (N.to_uint (Z.to_N n)).

Definition validIp (ipAddress : string) : bool :=
  let octets := split "." ipAddress in
  bool_decide (length octets = 4%nat) &&
  forallb (λ o, match parseInt o with
                | Some n => (0 <=? n) && (n <=? 255)
                | None => false
                end) octets.

(** [octets.reduce((p, c, i) => p + parseInt(c) * 256 ** (3 - i), 0)] *)
Fixpoint sum_octets (i : nat) (octets : list string) : Z :=
  match octets with
  | [] => 0
  | o :: rest =>
      default 0 (parseInt o) * 256 ^ (3 - Z.of_nat i) + sum_octets (S i) rest
  end.

Definition ipToNum (ipAddress : string) : Result Z :=
  if validIp ipAddress
  then Ok (sum_octets 0 (split "." ipAddress))
  else Throw (ipAddress +:+ " is not valid").

Definition join (sep : string) (l : list string) : string :=
  match l with
  | [] => ""
  | x :: rest => fold_left (λ acc y, acc +:+ sep +:+ y) rest x
  end.

Definition numToIp (ipNum : Z) : Result string :=
  let o0 := ipNum / 256 ^ 3 in
  let r0 := ipNum mod 256 ^ 3 in
  let o1 := r0 / 256 ^ 2 in
  let r1 := r0 mod 256 ^ 2 in
  let o2 := r1 / 256 in
  let o3 := r1 mod 256 in
  let ipAddress := join "." (toString <$> [o0; o1; o2; o3]) in
  if validIp ipAddress then Ok ipAddress
  else Throw (ipAddress +:+ " is not a valid IP Address").

End NetworkUtils.

Module CidrBlock.

Record t : Type := { networkAddress : Z; mask : Z }.

Definition calculateNetsize (mask : Z) : Z := 2 ^ (32 - mask).

(** [new CidrBlock(ipAddress, mask)] on a number *)
Definition ofNum (ipAddress : Z) (mask : Z) : t :=
  {| networkAddress := ipAddress + calculateNetsize mask - 1; mask := mask |}.

(** [new CidrBlock(cidr)] on a string.  Where [parseInt] yields [NaN]
    the toolkit carries on with a meaningless block; the embedding
    stops there. *)
Definition ofString (cidr : string) : Result t :=
  let parts := NetworkUtils.split "/" cidr in
  match parts !! 1%nat ≫= NetworkUtils.parseInt with
  | None => Throw (cidr +:+ " has no mask")
  | Some m =>
      match NetworkUtils.ipToNum (default "" (parts !! 0%nat)) with
      | Ok ip => Ok (ofNum ip m)
      | Throw msg => Throw msg
      end
  end.

Definition minIp (b : t) : Z :=
  let netSize := calculateNetsize (mask b) in
  networkAddress b - networkAddress b mod netSize.

Definition maxIp (b : t) : Z :=
  minIp b + calculateNetsize (mask b) - 1.

Definition cidr (b : t) : Result string :=
  match NetworkUtils.numToIp (minIp b) with
  | Ok a => Ok (a +:+ "/" +:+ NetworkUtils.toString (mask b))
  | Throw msg => Throw msg
  end.

Definition nextBlock (b : t) : t := ofNum (maxIp b + 1) (mask b).

Definition containsCidr (b other : t) : bool :=
  (maxIp other <=? maxIp b) && (minIp b <=? minIp other).

End CidrBlock.

Module NetworkBuilder.

Record t : Type := {
  networkCidr : CidrBlock.t;
  subnetCidrs : list CidrBlock.t;
  nextAvailableIp : Z
}.

Definition new (cidr : string) : Result t :=
  match CidrBlock.ofString cidr with
  | Ok b => Ok {| networkCidr := b; subnetCidrs := [];
                  nextAvailableIp := CidrBlock.minIp b |}
  | Throw msg => Throw msg
  end.

(** [addSubnet(mask)]: the next block of that size, at the first
    aligned address not yet handed out. *)
Definition addSubnet (mask : Z) (nb : t) : Result (string * t) :=
  if (mask <? 16) || (28 <? mask)
  then Throw ("x.x.x.x/" +:+ NetworkUtils.toString mask +:+ " is not a valid VPC subnet mask")
  else
    let maxIp := nextAvailableIp nb + CidrBlock.calculateNetsize mask in
    if CidrBlock.maxIp (networkCidr nb) <? maxIp - 1
    then Throw ("1 of /" +:+ NetworkUtils.toString mask +:+ " exceeds remaining space")
    else
      let subnet := CidrBlock.ofNum (nextAvailableIp nb) mask in
      match CidrBlock.cidr subnet with
      | Ok c =>
          Ok (c, {| networkCidr := networkCidr nb;
                    subnetCidrs := (subnetCidrs nb ++ [subnet])%list;
                    nextAvailableIp := CidrBlock.minIp (CidrBlock.nextBlock subnet) |})
      | Throw msg => Throw msg
      end.

End NetworkBuilder.

(** Two blocks share an address. *)
Definition overlaps (a b : CidrBlock.t) : bool :=
  (CidrBlock.minIp a <=? CidrBlock.maxIp b) && (CidrBlock.minIp b <=? CidrBlock.maxIp a).

Definition in_block (ip : Z) (b : CidrBlock.t) : Prop :=
  CidrBlock.minIp b <= ip <= CidrBlock.maxIp b.

(** ** Resource descriptors

    One record per resource type, with the properties the declaration
    and the constructs it instantiates set. *)

(** A value produced on demand at synthesis from the state of the
    construct at [owner]. *)
Inductive Lazy (A : Type) : Type :=
| Produce (owner : Path)
| Resolved (a : A).
Arguments Produce {A} owner.
Arguments Resolved {A} a.

Module CfnSubnetProps.
Record t : Type := {
  vpcId : Value;
  cidrBlock : string;
  availabilityZone : string;
  mapPublicIpOnLaunch : option bool
}.
End CfnSubnetProps.

Module CfnRouteProps.
Record t : Type := {
  routeTableId : Value;
  destinationCidrBlock : string;
  gatewayId : option Value;
  natGatewayId : option Value;
  carrierGatewayId : option Value
}.
End CfnRouteProps.

Module CfnSecurityGroupProps.
Record IngressRule : Type := {
  cidrIp : string;
  ipProtocol : string;
  fromPort : option Z;
  toPort : option Z;
  description : string
}.
Record EgressRule : Type := {
  egress_cidrIp : string;
  egress_ipProtocol : string;
  egress_fromPort : option Z;
  egress_toPort : option Z;
  egress_description : string
}.
Record t : Type := {
  groupName : option string;
  groupDescription : string;
  vpcId : Value;
  securityGroupIngress : Lazy (list IngressRule);
  securityGroupEgress : Lazy (list EgressRule)
}.
End CfnSecurityGroupProps.

Module CfnLaunchTemplateProps.
Record NetworkInterface : Type := {
  deviceIndex : Z;
  associateCarrierIpAddress : option bool;
  groups : list Value;
  deleteOnTermination : bool;
  subnetId : Value
}.
Record IamInstanceProfile : Type := { arn : Value }.
Record LaunchTemplateData : Type := {
  networkInterfaces : list NetworkInterface;
  imageId : Value;
  instanceType : string;
  keyName : string;
  iamInstanceProfile : IamInstanceProfile
}.
Record t : Type := {
  launchTemplateName : option string;
  launchTemplateData : LaunchTemplateData
}.
End CfnLaunchTemplateProps.

Module CfnInstanceProps.
Record LaunchTemplateSpecification : Type := {
  launchTemplateName : option string;
  version : Value
}.
Record t : Type := {
  launchTemplate : LaunchTemplateSpecification;
  availabilityZone : string
}.
End CfnInstanceProps.

(** The elements of a stack, named by their provider resource type. *)
Inductive CfnElement : Type :=
| AWS_IAM_Role (assumedBy : string)
| AWS_EC2_VPC (cidrBlock : string)
| AWS_EC2_Subnet (props : CfnSubnetProps.t)
| AWS_EC2_RouteTable (vpcId : Value)
| AWS_EC2_SubnetRouteTableAssociation (subnetId routeTableId : Value)
| AWS_EC2_Route (props : CfnRouteProps.t)
| AWS_EC2_InternetGateway
| AWS_EC2_VPCGatewayAttachment (vpcId internetGatewayId : Value)
| AWS_EC2_EIP (domain : string)
| AWS_EC2_NatGateway (subnetId allocationId : Value)
| AWS_EC2_CarrierGateway (vpcId : Value)
| AWS_EC2_SecurityGroup (props : CfnSecurityGroupProps.t)
| AWS_IAM_InstanceProfile (roles : list Value)
| AWS_EC2_LaunchTemplate (props : CfnLaunchTemplateProps.t)
| AWS_EC2_Instance (props : CfnInstanceProps.t)
| CFN_Parameter (type default : string)
| CFN_Output (value : Value).

(** ** Construct objects the declaration holds on to

    The public fields of the toolkit's [Subnet], [Vpc] and
    [SecurityGroup] objects.  A [Vpc] and a [SecurityGroup] are mutated
    after their construction (a [push] on the subnet array, the
    [addIngressRule] calls), so they live in a store indexed by the path
    of their construct, and the declaration holds their path. *)

Module ISubnet.
Record RouteTable : Type := { routeTableId : Value }.
Record t : Type := {
  node : Path;
  subnetId : Value;
  availabilityZone : string;
  ipv4CidrBlock : string;
  routeTable : RouteTable
}.
End ISubnet.

Module IVpc.
Record t : Type := {
  vpcId : Value;
  availabilityZones : list string;
  publicSubnets : list ISubnet.t;
  privateSubnets : list ISubnet.t;
  isolatedSubnets : list ISubnet.t
}.
End IVpc.

Module ISecurityGroup.
Record t : Type := {
  securityGroupId : Value;
  allowAllOutbound : bool;
  directIngressRules : list CfnSecurityGroupProps.IngressRule;
  directEgressRules : list CfnSecurityGroupProps.EgressRule
}.
End ISecurityGroup.

(** ** The core of the toolkit: app, stack, construct tree, synthesis *)

Module cdk.

Record Environment : Type := {
  account : option string;
  region : option string
}.

Record StackProps : Type := {
  description : option string;
  env : option Environment;
  stackName : option string
}.

(** [new cdk.App()].  The one thing the app supplies to the constructs
    instantiated below is the list of availability zones of the stack's
    environment ([stack.availabilityZones]), which the toolkit takes
    from its context. *)
Record App : Type := { context_availabilityZones : list string }.

(** The stack under construction: the paths of all constructs created
    so far, the elements in creation order, and the store of mutable
    construct objects. *)
Record Stack : Type := {
  id : string;
  props : StackProps;
  availabilityZones : list string;
  nodes : list Path;
  elements : list (Path * CfnElement);
  vpcs : gmap Path IVpc.t;
  securityGroups : gmap Path ISecurityGroup.t
}.

(** [new cdk.Stack(scope, id, props)] *)
Definition Stack_new (scope : App) (id : string) (props : StackProps) : Stack :=
  {| id := id; props := props;
     availabilityZones := context_availabilityZones scope;
     nodes := []; elements := []; vpcs := ∅; securityGroups := ∅ |}.

(** Construction code: it reads and extends the stack, or throws. *)
Definition M (A : Type) : Type := Stack → Result (A * Stack).

#[global] Instance M_ret : MRet M := λ A a s, Ok (a, s).

#[global] Instance M_bind : MBind M := λ A B f m s,
  match m s with
  | Ok (a, s') => f a s'
  | Throw msg => Throw msg
  end.

Definition throw {A} (msg : string) : M A := λ _, Throw msg.

Definition gets {A} (f : Stack → A) : M A := λ s, Ok (f s, s).

Definition modify (f : Stack → Stack) : M unit := λ s, Ok ((), f s).

Definition liftR {A} (r : Result A) : M A := λ s,
  match r with
  | Ok a => Ok (a, s)
  | Throw msg => Throw msg
  end.

(** [new Construct(scope, id)]: two constructs of one scope cannot
    share an id. *)
Definition addChild (scope : Path) (childName : string) : M Path := λ s,
  let p := (scope ++ [childName])%list in
  if bool_decide (p ∈ nodes s)
  then Throw ("There is already a Construct with name '" +:+ childName +:+ "'")
  else Ok (p, {| id := id s; props := props s;
                 availabilityZones := availabilityZones s;
                 nodes := (nodes s ++ [p])%list; elements := elements s;
                 vpcs := vpcs s; securityGroups := securityGroups s |}).

Definition pushElement (p : Path) (e : CfnElement) (s : Stack) : Stack :=
  {| id := id s; props := props s;
     availabilityZones := availabilityZones s;
     nodes := nodes s; elements := (elements s ++ [(p, e)])%list;
     vpcs := vpcs s; securityGroups := securityGroups s |}.

(** [new CfnXxx(scope, id, props)] *)
Definition addElement (scope : Path) (id : string) (e : CfnElement) : M Path :=
  p ← addChild scope id;
  modify (pushElement p e);;
  mret p.

Definition setVpc (p : Path) (v : IVpc.t) (s : Stack) : Stack :=
  {| id := id s; props := props s;
     availabilityZones := availabilityZones s;
     nodes := nodes s; elements := elements s;
     vpcs := <[p := v]> (vpcs s); securityGroups := securityGroups s |}.

Definition setSecurityGroup (p : Path) (g : ISecurityGroup.t) (s : Stack) : Stack :=
  {| id := id s; props := props s;
     availabilityZones := availabilityZones s;
     nodes := nodes s; elements := elements s;
     vpcs := vpcs s; securityGroups := <[p := g]> (securityGroups s) |}.

(** Dereferencing a construct object. *)
Definition getVpc (p : Path) : M IVpc.t := λ s,
  match vpcs s !! p with
  | Some v => Ok (v, s)
  | None => Throw "not a Vpc"
  end.

Definition getSecurityGroup (p : Path) : M ISecurityGroup.t := λ s,
  match securityGroups s !! p with
  | Some g => Ok (g, s)
  | None => Throw "not a SecurityGroup"
  end.

(** [construct.node.path] *)
Definition nodePath (p : Path) : M string :=
  gets (λ s, NetworkUtils.join "/" (id s :: p)).

(** [new cdk.CfnOutput(scope, id, { value })] *)
Definition CfnOutput (scope : Path) (id : string) (value : Value) : M Path :=
  addElement scope id (CFN_Output value).

(** *** Synthesis

    [app.synth()] renders every element of the stack, in creation
    order; a lazy property is produced from the final state of the
    construct that owns it. *)

Definition Template : Type := list (Path * CfnElement).

Definition resolveElement (s : Stack) (e : CfnElement) : Result CfnElement :=
  match e with
  | AWS_EC2_SecurityGroup p =>
      let produce {A} (f : ISecurityGroup.t → A) (l : Lazy A) : Result A :=
        match l with
        | Resolved a => Ok a
        | Produce owner =>
            match securityGroups s !! owner with
            | Some g => Ok (f g)
            | None => Throw "unresolved token"
            end
        end in
      match produce ISecurityGroup.directIngressRules (CfnSecurityGroupProps.securityGroupIngress p),
            produce ISecurityGroup.directEgressRules (CfnSecurityGroupProps.securityGroupEgress p) with
      | Ok ing, Ok eg =>
          Ok (AWS_EC2_SecurityGroup
                {| CfnSecurityGroupProps.groupName := CfnSecurityGroupProps.groupName p;
                   CfnSecurityGroupProps.groupDescription := CfnSecurityGroupProps.groupDescription p;
                   CfnSecurityGroupProps.vpcId := CfnSecurityGroupProps.vpcId p;
                   CfnSecurityGroupProps.securityGroupIngress := Resolved ing;
                   CfnSecurityGroupProps.securityGroupEgress := Resolved eg |})
      | Throw msg, _ | _, Throw msg => Throw msg
      end
  | _ => Ok e
  end.

Fixpoint resolveAll (s : Stack) (l : list (Path * CfnElement)) : Result Template :=
  match l with
  | [] => Ok []
  | (p, e) :: rest =>
      match resolveElement s e, resolveAll s rest with
      | Ok e', Ok rest' => Ok ((p, e') :: rest')
      | Throw msg, _ | _, Throw msg => Throw msg
      end
  end.

Definition synth (s : Stack) : Result Template := resolveAll s (elements s).

End cdk.

(** ** Identity constructs *)

Module iam.

Record Role_t : Type := { roleName : Value; roleArn : Value }.

Record CfnInstanceProfile_t : Type := { ref : Value; attrArn : Value }.

Definition ServicePrincipal (service : string) : string := service.

(** [new iam.Role(scope, id, { assumedBy })] *)
Definition Role (scope : Path) (id : string) (assumedBy : string) : cdk.M Role_t :=
  this ← cdk.addChild scope id;
  role ← cdk.addElement this "Resource" (AWS_IAM_Role assumedBy);
  mret {| roleName := Ref role; roleArn := GetAtt role "Arn" |}.

(** [new iam.CfnInstanceProfile(scope, id, { roles })] *)
Definition CfnInstanceProfile (scope : Path) (id : string) (roles : list Value)
  : cdk.M CfnInstanceProfile_t :=
  this ← cdk.addElement scope id (AWS_IAM_InstanceProfile roles);
  mret {| ref := Ref this; attrArn := GetAtt this "Arn" |}.

End iam.

(** ** Network and compute constructs *)

Module ec2.

Inductive SubnetType : Type := PUBLIC | PRIVATE | ISOLATED.

#[global] Instance SubnetType_eq_dec : EqDecision SubnetType.
Proof. solve_decision. Defined.

(** The declaration gives every subnet group its type, name and mask. *)
Record SubnetConfiguration : Type := {
  subnetType : SubnetType;
  name : string;
  cidrMask : Z
}.

Record VpcProps : Type := {
  cidr : string;
  maxAzs : nat;
  subnetConfiguration : list SubnetConfiguration
}.

Record SubnetProps : Type := {
  availabilityZone : string;
  cidrBlock : string;
  vpcId : Value;
  mapPublicIpOnLaunch : option bool
}.

(** [new ec2.Subnet(scope, id, props)]: the subnet, a route table of
    its own, and their association. *)
Definition Subnet (scope : Path) (id : string) (props : SubnetProps) : cdk.M ISubnet.t :=
  this ← cdk.addChild scope id;
  subnet ← cdk.addElement this "Subnet"
    (AWS_EC2_Subnet
       {| CfnSubnetProps.vpcId := vpcId props;
          CfnSubnetProps.cidrBlock := cidrBlock props;
          CfnSubnetProps.availabilityZone := availabilityZone props;
          CfnSubnetProps.mapPublicIpOnLaunch := mapPublicIpOnLaunch props |});
  table ← cdk.addElement this "RouteTable" (AWS_EC2_RouteTable (vpcId props));
  cdk.addElement this "RouteTableAssociation"
    (AWS_EC2_SubnetRouteTableAssociation (Ref subnet) (Ref table));;
  mret {| ISubnet.node := this;
          ISubnet.subnetId := Ref subnet;
          ISubnet.availabilityZone := availabilityZone props;
          ISubnet.ipv4CidrBlock := cidrBlock props;
          ISubnet.routeTable := {| ISubnet.routeTableId := Ref table |} |}.

Definition PublicSubnet := Subnet.
Definition PrivateSubnet := Subnet.

(** [publicSubnet.addDefaultInternetRoute(gatewayId, dependency)] *)
Definition addDefaultInternetRoute (sub : ISubnet.t) (gatewayId : Value) : cdk.M unit :=
  cdk.addElement (ISubnet.node sub) "DefaultRoute"
    (AWS_EC2_Route
       {| CfnRouteProps.routeTableId := ISubnet.routeTableId (ISubnet.routeTable sub);
          CfnRouteProps.destinationCidrBlock := "0.0.0.0/0";
          CfnRouteProps.gatewayId := Some gatewayId;
          CfnRouteProps.natGatewayId := None;
          CfnRouteProps.carrierGatewayId := None |});;
  mret ().

(** [publicSubnet.addNatGateway()] *)
Definition addNatGateway (sub : ISubnet.t) : cdk.M Value :=
  eip ← cdk.addElement (ISubnet.node sub) "EIP" (AWS_EC2_EIP "vpc");
  ngw ← cdk.addElement (ISubnet.node sub) "NATGateway"
    (AWS_EC2_NatGateway (ISubnet.subnetId sub) (GetAtt eip "AllocationId"));
  mret (Ref ngw).

(** [subnet.addRoute('DefaultRoute', { routerType: NAT_GATEWAY, routerId })] *)
Definition addDefaultNatRoute (sub : ISubnet.t) (natGatewayId : Value) : cdk.M unit :=
  cdk.addElement (ISubnet.node sub) "DefaultRoute"
    (AWS_EC2_Route
       {| CfnRouteProps.routeTableId := ISubnet.routeTableId (ISubnet.routeTable sub);
          CfnRouteProps.destinationCidrBlock := "0.0.0.0/0";
          CfnRouteProps.gatewayId := None;
          CfnRouteProps.natGatewayId := Some natGatewayId;
          CfnRouteProps.carrierGatewayId := None |});;
  mret ().

(** The NAT provider's set of gateways, preferred by zone. *)
Module PrefSet.
Record t : Type := {
  map : gmap string Value;
  vals : list (string * Value);
  next : nat
}.
Definition empty : t := {| map := ∅; vals := []; next := 0 |}.
Definition add (pref : string) (value : Value) (ps : t) : t :=
  {| map := <[pref := value]> (map ps);
     vals := (vals ps ++ [(pref, value)])%list;
     next := next ps |}.
Definition pick (pref : string) (ps : t) : Result (Value * t) :=
  match vals ps with
  | [] => Throw "Cannot pick, set is empty"
  | d :: _ =>
      match map ps !! pref with
      | Some v => Ok (v, ps)
      | None =>
          Ok (snd (default d (vals ps !! (next ps mod length (vals ps))%nat)),
              {| map := map ps; vals := vals ps; next := S (next ps) |})
      end
  end.
End PrefSet.

(** The Vpc under construction: its public fields and its private
    address allocator. *)
Record VpcBuild : Type := {
  self : IVpc.t;
  networkBuilder : NetworkBuilder.t
}.

Definition subnetId (name : string) (i : nat) : string :=
  name +:+ "Subnet" +:+ NetworkUtils.toString (Z.of_nat (i + 1)).

Definition pushSubnet (ty : SubnetType) (sub : ISubnet.t) (v : IVpc.t) : IVpc.t :=
  {| IVpc.vpcId := IVpc.vpcId v;
     IVpc.availabilityZones := IVpc.availabilityZones v;
     IVpc.publicSubnets :=
       if decide (ty = PUBLIC) then (IVpc.publicSubnets v ++ [sub])%list
       else IVpc.publicSubnets v;
     IVpc.privateSubnets :=
       if decide (ty = PRIVATE) then (IVpc.privateSubnets v ++ [sub])%list
       else IVpc.privateSubnets v;
     IVpc.isolatedSubnets :=
       if decide (ty = ISOLATED) then (IVpc.isolatedSubnets v ++ [sub])%list
       else IVpc.isolatedSubnets v |}.

(** [createSubnetResources(subnetConfig, cidrMask)]: one subnet per
    zone, [zones.forEach((zone, index) => ...)]. *)
Fixpoint createSubnetResources (this : Path) (subnetConfig : SubnetConfiguration)
    (index : nat) (zones : list string) (b : VpcBuild) : cdk.M VpcBuild :=
  match zones with
  | [] => mret b
  | zone :: rest =>
      '(block, nb) ← cdk.liftR (NetworkBuilder.addSubnet (cidrMask subnetConfig) (networkBuilder b));
      sub ← Subnet this (subnetId (name subnetConfig) index)
        {| availabilityZone := zone;
           vpcId := IVpc.vpcId (self b);
           cidrBlock := block;
           mapPublicIpOnLaunch :=
             Some (bool_decide (subnetType subnetConfig = PUBLIC)) |};
      createSubnetResources this subnetConfig (S index) rest
        {| self := pushSubnet (subnetType subnetConfig) sub (self b);
           networkBuilder := nb |}
  end.

(** [createSubnets()]: the subnet groups, in the order configured. *)
Fixpoint createSubnets (this : Path) (configs : list SubnetConfiguration)
    (b : VpcBuild) : cdk.M VpcBuild :=
  match configs with
  | [] => mret b
  | subnet :: rest =>
      b' ← createSubnetResources this subnet 0 (IVpc.availabilityZones (self b)) b;
      createSubnets this rest b'
  end.

Definition determineNatGatewayCount (subnetConfig : list SubnetConfiguration)
    (azCount : nat) : Result nat :=
  let hasPrivateSubnets :=
    existsb (λ c, bool_decide (subnetType c = PRIVATE)) subnetConfig in
  let hasPublicSubnets :=
    existsb (λ c, bool_decide (subnetType c = PUBLIC)) subnetConfig in
  let count := if hasPrivateSubnets then azCount else 0%nat in
  if bool_decide (count = 0%nat) && hasPrivateSubnets
  then Throw "If you do not want NAT gateways (natGateways=0), make sure you don't configure any PRIVATE subnets"
  else if bool_decide (0 < count)%nat && negb hasPublicSubnets
  then Throw "If you configure PRIVATE subnets, you must also configure PUBLIC subnets to put the NAT gateways into"
  else Ok count.

Fixpoint forEach {A} (f : A → cdk.M unit) (l : list A) : cdk.M unit :=
  match l with
  | [] => mret ()
  | x :: rest => f x;; forEach f rest
  end.

(** The gateway provider: one NAT gateway in each of [natSubnets], then
    a default route in every private subnet. *)
Fixpoint createGateways (natSubnets : list ISubnet.t) (gateways : PrefSet.t)
  : cdk.M PrefSet.t :=
  match natSubnets with
  | [] => mret gateways
  | sub :: rest =>
      gateway ← addNatGateway sub;
      createGateways rest (PrefSet.add (ISubnet.availabilityZone sub) gateway gateways)
  end.

Fixpoint configureSubnets (privateSubnets : list ISubnet.t) (gateways : PrefSet.t)
  : cdk.M unit :=
  match privateSubnets with
  | [] => mret ()
  | sub :: rest =>
      '(gatewayId, gateways') ← cdk.liftR (PrefSet.pick (ISubnet.availabilityZone sub) gateways);
      addDefaultNatRoute sub gatewayId;;
      configureSubnets rest gateways'
  end.

Definition createNatGateways (v : IVpc.t) (natCount : nat) : cdk.M unit :=
  gateways ← createGateways (take natCount (IVpc.publicSubnets v)) PrefSet.empty;
  configureSubnets (IVpc.privateSubnets v) gateways.

(** [new ec2.Vpc(scope, id, props)] *)
Definition Vpc (scope : Path) (id : string) (props : VpcProps) : cdk.M Path :=
  this ← cdk.addChild scope id;
  networkBuilder ← cdk.liftR (NetworkBuilder.new (cidr props));
  resource ← cdk.addElement this "Resource" (AWS_EC2_VPC (cidr props));
  stackZones ← cdk.gets cdk.availabilityZones;
  natGatewayCount ← cdk.liftR
    (determineNatGatewayCount (subnetConfiguration props)
       (length (take (maxAzs props) stackZones)));
  b ← createSubnets this (subnetConfiguration props)
    {| self := {| IVpc.vpcId := Ref resource;
                  IVpc.availabilityZones := take (maxAzs props) stackZones;
                  IVpc.publicSubnets := [];
                  IVpc.privateSubnets := [];
                  IVpc.isolatedSubnets := [] |};
       networkBuilder := networkBuilder |};
  (if existsb (λ c, negb (bool_decide (subnetType c = ISOLATED))) (subnetConfiguration props)
   then
     igw ← cdk.addElement this "IGW" AWS_EC2_InternetGateway;
     cdk.addElement this "VPCGW" (AWS_EC2_VPCGatewayAttachment (Ref resource) (Ref igw));;
     forEach (λ publicSubnet, addDefaultInternetRoute publicSubnet (Ref igw))
       (IVpc.publicSubnets (self b));;
     (if bool_decide (0 < natGatewayCount)%nat
      then createNatGateways (self b) natGatewayCount
      else mret ())
   else mret ());;
  cdk.modify (cdk.setVpc this (self b));;
  mret this.

(** [new ec2.CfnCarrierGateway(scope, id, { vpcId })] *)
Record CfnCarrierGateway_t : Type := { ref : Value }.

Definition CfnCarrierGateway (scope : Path) (id : string) (vpcId : Value)
  : cdk.M CfnCarrierGateway_t :=
  this ← cdk.addElement scope id (AWS_EC2_CarrierGateway vpcId);
  mret {| ref := Ref this |}.

(** [new ec2.CfnRoute(scope, id, props)] *)
Definition CfnRoute (scope : Path) (id : string) (props : CfnRouteProps.t) : cdk.M Path :=
  cdk.addElement scope id (AWS_EC2_Route props).

(** Peers and ports.  The peers and ports built from literal addresses
    and numbers, the only ones the declaration uses, can always be
    written inline in the security group. *)
Module Peer.
Record IPeer : Type := { uniqueId : string; cidrIp : string }.
Definition ipv4 (cidrIp : string) : IPeer :=
  {| uniqueId := cidrIp; cidrIp := cidrIp |}.
Definition anyIpv4 : IPeer := ipv4 "0.0.0.0/0".
End Peer.

Module Port.
Inductive Protocol : Type := ALL | TCP | UDP | ICMP.
Definition protocolName (p : Protocol) : string :=
  match p with
  | ALL => "-1"
  | TCP => "tcp"
  | UDP => "udp"
  | ICMP => "icmp"
  end.
Record t : Type := {
  protocol : Protocol;
  fromPort : option Z;
  toPort : option Z;
  stringRepresentation : string
}.
Definition tcp (port : Z) : t :=
  {| protocol := TCP; fromPort := Some port; toPort := Some port;
     stringRepresentation := NetworkUtils.toString port |}.
Definition icmpType (type : Z) : t :=
  {| protocol := ICMP; fromPort := Some type; toPort := Some (-1);
     stringRepresentation := "ICMP Type " +:+ NetworkUtils.toString type |}.
Definition icmpPing : t := icmpType 8.
End Port.

Record SecurityGroupProps : Type := {
  vpc : Path;
  allowAllOutbound : option bool;
  securityGroupName : option string;
  description : option string
}.

Definition ALLOW_ALL_RULE : CfnSecurityGroupProps.EgressRule :=
  {| CfnSecurityGroupProps.egress_cidrIp := "0.0.0.0/0";
     CfnSecurityGroupProps.egress_ipProtocol := "-1";
     CfnSecurityGroupProps.egress_fromPort := None;
     CfnSecurityGroupProps.egress_toPort := None;
     CfnSecurityGroupProps.egress_description := "Allow all outbound traffic by default" |}.

Definition MATCH_NO_TRAFFIC : CfnSecurityGroupProps.EgressRule :=
  {| CfnSecurityGroupProps.egress_cidrIp := "255.255.255.255/32";
     CfnSecurityGroupProps.egress_ipProtocol := "icmp";
     CfnSecurityGroupProps.egress_fromPort := Some 252;
     CfnSecurityGroupProps.egress_toPort := Some 86;
     CfnSecurityGroupProps.egress_description := "Disallow all traffic" |}.

(** [new ec2.SecurityGroup(scope, id, props)].  The rules of the
    resource are produced at synthesis from the rules the object holds
    by then. *)
Definition SecurityGroup (scope : Path) (id : string) (props : SecurityGroupProps)
  : cdk.M Path :=
  this ← cdk.addChild scope id;
  path ← cdk.nodePath this;
  v ← cdk.getVpc (vpc props);
  let allowAllOutbound := negb (bool_decide (allowAllOutbound props = Some false)) in
  resource ← cdk.addElement this "Resource"
    (AWS_EC2_SecurityGroup
       {| CfnSecurityGroupProps.groupName := securityGroupName props;
          CfnSecurityGroupProps.groupDescription := default path (description props);
          CfnSecurityGroupProps.vpcId := IVpc.vpcId v;
          CfnSecurityGroupProps.securityGroupIngress := Produce this;
          CfnSecurityGroupProps.securityGroupEgress := Produce this |});
  cdk.modify (cdk.setSecurityGroup this
    {| ISecurityGroup.securityGroupId := GetAtt resource "GroupId";
       ISecurityGroup.allowAllOutbound := allowAllOutbound;
       ISecurityGroup.directIngressRules := [];
       ISecurityGroup.directEgressRules :=
         if allowAllOutbound then [ALLOW_ALL_RULE] else [MATCH_NO_TRAFFIC] |});;
  mret this.

Definition ingressRulesEqual (a b : CfnSecurityGroupProps.IngressRule) : bool :=
  bool_decide (CfnSecurityGroupProps.cidrIp a = CfnSecurityGroupProps.cidrIp b)
  && bool_decide (CfnSecurityGroupProps.fromPort a = CfnSecurityGroupProps.fromPort b)
  && bool_decide (CfnSecurityGroupProps.toPort a = CfnSecurityGroupProps.toPort b)
  && bool_decide (CfnSecurityGroupProps.ipProtocol a = CfnSecurityGroupProps.ipProtocol b).

(** [securityGroup.addIngressRule(peer, connection, description)]: the
    rule is appended to the group's own rules unless an equal rule is
    already there. *)
Definition addIngressRule (securityGroup : Path) (peer : Peer.IPeer)
    (connection : Port.t) (description : option string) : cdk.M unit :=
  g ← cdk.getSecurityGroup securityGroup;
  let description :=
    default ("from " +:+ Peer.uniqueId peer +:+ ":" +:+ Port.stringRepresentation connection)
            description in
  let rule :=
    {| CfnSecurityGroupProps.cidrIp := Peer.cidrIp peer;
       CfnSecurityGroupProps.ipProtocol := Port.protocolName (Port.protocol connection);
       CfnSecurityGroupProps.fromPort := Port.fromPort connection;
       CfnSecurityGroupProps.toPort := Port.toPort connection;
       CfnSecurityGroupProps.description := description |} in
  if existsb (λ r, ingressRulesEqual r rule) (ISecurityGroup.directIngressRules g)
  then mret ()
  else cdk.modify (cdk.setSecurityGroup securityGroup
         {| ISecurityGroup.securityGroupId := ISecurityGroup.securityGroupId g;
            ISecurityGroup.allowAllOutbound := ISecurityGroup.allowAllOutbound g;
            ISecurityGroup.directIngressRules :=
              (ISecurityGroup.directIngressRules g ++ [rule])%list;
            ISecurityGroup.directEgressRules := ISecurityGroup.directEgressRules g |}).

(** [new ec2.AmazonLinuxImage()] with its defaults names the public
    parameter of the latest image; [getImage(scope)] declares a stack
    parameter for it, once per stack, and returns its reference. *)
Record MachineImageConfig : Type := { imageId : Value }.

Definition AmazonLinuxImage : string :=
  "/aws/service/ami-amazon-linux-latest/amzn-ami-hvm-x86_64-gp2".

Definition getImage (image : string) (scope : Path) : cdk.M MachineImageConfig :=
  let id := "SsmParameterValue:" +:+ image +:+ ":C96584B6-F00A-464E-AD19-53AFF4B05118" in
  known ← cdk.gets (λ s, bool_decide ([id] ∈ cdk.nodes s));
  if (known : bool)
  then mret {| imageId := Ref [id +:+ ".Parameter"] |}
  else
    param ← cdk.addElement [] (id +:+ ".Parameter")
      (CFN_Parameter "AWS::SSM::Parameter::Value<AWS::EC2::Image::Id>" image);
    cdk.addChild [] id;;
    mret {| imageId := Ref param |}.

(** [new ec2.CfnLaunchTemplate(scope, id, props)] *)
Record CfnLaunchTemplate_t : Type := {
  launchTemplate_ref : Value;
  launchTemplateName : option string;
  attrDefaultVersionNumber : Value;
  attrLatestVersionNumber : Value
}.

Definition CfnLaunchTemplate (scope : Path) (id : string)
    (props : CfnLaunchTemplateProps.t) : cdk.M CfnLaunchTemplate_t :=
  this ← cdk.addElement scope id (AWS_EC2_LaunchTemplate props);
  mret {| launchTemplate_ref := Ref this;
          launchTemplateName := CfnLaunchTemplateProps.launchTemplateName props;
          attrDefaultVersionNumber := GetAtt this "DefaultVersionNumber";
          attrLatestVersionNumber := GetAtt this "LatestVersionNumber" |}.

(** [new ec2.CfnInstance(scope, id, props)] *)
Record CfnInstance_t : Type := {
  instance_ref : Value;
  attrPublicDnsName : Value
}.

Definition CfnInstance (scope : Path) (id : string) (props : CfnInstanceProps.t)
  : cdk.M CfnInstance_t :=
  this ← cdk.addElement scope id (AWS_EC2_Instance props);
  mret {| instance_ref := Ref this;
          attrPublicDnsName := GetAtt this "PublicDnsName" |}.

End ec2.

(** Reads and writes through a held construct object:
    [vpc.vpcId], [vpc.privateSubnets.push(subnet)] and
    [securityGroup.securityGroupId]. *)

Definition vpc_vpcId (vpc : Path) : cdk.M Value :=
  v ← cdk.getVpc vpc; mret (IVpc.vpcId v).

Definition vpc_privateSubnets_push (vpc : Path) (subnet : ISubnet.t) : cdk.M unit :=
  v ← cdk.getVpc vpc;
  cdk.modify (cdk.setVpc vpc
    {| IVpc.vpcId := IVpc.vpcId v;
       IVpc.availabilityZones := IVpc.availabilityZones v;
       IVpc.publicSubnets := IVpc.publicSubnets v;
       IVpc.privateSubnets := (IVpc.privateSubnets v ++ [subnet])%list;
       IVpc.isolatedSubnets := IVpc.isolatedSubnets v |}).

Definition securityGroup_securityGroupId (securityGroup : Path) : cdk.M Value :=
  g ← cdk.getSecurityGroup securityGroup; mret (ISecurityGroup.securityGroupId g).

(** ** The declaration: [src/index.ts] *)

Section Declaration.

(** [process.env], after [dotenv] has loaded its file into it. *)
Variable process_env : gmap string string.

Record Config : Type := { env : cdk.Environment }.

Definition config : Config :=
  {| env := {| cdk.account := process_env !! "AWS_ACCOUNT_NUMBER";
               cdk.region := process_env !! "AWS_REGION" |} |}.

(** Wavelength zones based on region availability *)
Definition wavelengthAZ : string := "us-west-2-wl1-sfo-wlz-1".

(** The constants bound in the constructor. *)
Record WlEc2Stack_consts : Type := {
  role : iam.Role_t;
  vpc : Path;
  cagw : ec2.CfnCarrierGateway_t;
  wlPrivateSubnet : ISubnet.t;
  securityGroup : Path;
  instanceProfile : iam.CfnInstanceProfile_t;
  image : string;
  wlLaunchTemplate : ec2.CfnLaunchTemplate_t;
  wlEc2Instance : ec2.CfnInstance_t
}.

Definition AppVPC_props : ec2.VpcProps :=
  {| ec2.cidr := "10.0.0.0/16";
     ec2.maxAzs := 1;
     ec2.subnetConfiguration :=
       [ {| ec2.subnetType := ec2.PUBLIC; ec2.name := "Public"; ec2.cidrMask := 24 |};
         {| ec2.subnetType := ec2.PRIVATE; ec2.name := "Private"; ec2.cidrMask := 24 |} ] |}.

(** The body of the constructor, after the call to [super]. *)
Definition WlEc2Stack_body : cdk.M WlEc2Stack_consts :=
  let this : Path := [] in
  (* create new IAM role *)
  role ← iam.Role this "wlz-ec2-demo-role" (iam.ServicePrincipal "ec2.amazonaws.com");
  (* create vpc *)
  vpc ← ec2.Vpc this "AppVPC" AppVPC_props;
  (* create carrier gateway *)
  vpcId ← vpc_vpcId vpc;
  cagw ← ec2.CfnCarrierGateway this "wlz-ec2-cagw" vpcId;
  (* create WLZ private subnet *)
  vpcId ← vpc_vpcId vpc;
  wlPrivateSubnet ← ec2.PrivateSubnet this "wlz-private-subnet"
    {| ec2.availabilityZone := wavelengthAZ;
       ec2.cidrBlock := "10.0.2.0/26";
       ec2.vpcId := vpcId;
       ec2.mapPublicIpOnLaunch := Some false |};
  (* add WLZ subnet to VPC privateSubnets[] *)
  vpc_privateSubnets_push vpc wlPrivateSubnet;;
  (* associate carrier gateway to route table *)
  ec2.CfnRoute this "wlz-route"
    {| CfnRouteProps.destinationCidrBlock := "0.0.0.0/0";
       CfnRouteProps.routeTableId := ISubnet.routeTableId (ISubnet.routeTable wlPrivateSubnet);
       CfnRouteProps.carrierGatewayId := Some (ec2.ref cagw);
       CfnRouteProps.gatewayId := None;
       CfnRouteProps.natGatewayId := None |};;
  (* create security group *)
  securityGroup ← ec2.SecurityGroup this "wlz-sg"
    {| ec2.vpc := vpc;
       ec2.allowAllOutbound := Some true;
       ec2.securityGroupName := Some "wlz-sg";
       ec2.description := None |};
  (* update security group rules: allow inbound traffic on specific ports *)
  ec2.addIngressRule securityGroup ec2.Peer.anyIpv4 (ec2.Port.tcp 22)
    (Some "Allows SSH access from bastion");;
  ec2.addIngressRule securityGroup ec2.Peer.anyIpv4 (ec2.Port.tcp 5000)
    (Some "Allows HTTP access from carrier network");;
  ec2.addIngressRule securityGroup ec2.Peer.anyIpv4 ec2.Port.icmpPing
    (Some "Allows ICMP pings from carrier devices");;
  (* create instance profile from IAM role *)
  instanceProfile ← iam.CfnInstanceProfile this "wlz-instance-profile"
    [iam.roleName role];
  (* define instance image *)
  let image := ec2.AmazonLinuxImage in
  (* create cfn launch template *)
  securityGroupId ← securityGroup_securityGroupId securityGroup;
  imageConfig ← ec2.getImage image this;
  wlLaunchTemplate ← ec2.CfnLaunchTemplate this "wl-launch-template"
    {| CfnLaunchTemplateProps.launchTemplateName := Some "wl-launch-template";
       CfnLaunchTemplateProps.launchTemplateData :=
         {| CfnLaunchTemplateProps.networkInterfaces :=
              [ {| CfnLaunchTemplateProps.deviceIndex := 0;
                   CfnLaunchTemplateProps.associateCarrierIpAddress := Some true;
                   CfnLaunchTemplateProps.groups := [securityGroupId];
                   CfnLaunchTemplateProps.deleteOnTermination := true;
                   CfnLaunchTemplateProps.subnetId := ISubnet.subnetId wlPrivateSubnet |} ];
            CfnLaunchTemplateProps.imageId := ec2.imageId imageConfig;
            CfnLaunchTemplateProps.instanceType := "t3.medium";
            CfnLaunchTemplateProps.keyName := "wl-cdk-demo-1";
            CfnLaunchTemplateProps.iamInstanceProfile :=
              {| CfnLaunchTemplateProps.arn := iam.attrArn instanceProfile |} |} |};
  (* create cfn instance *)
  wlEc2Instance ← ec2.CfnInstance this "wlz-ec2-instance"
    {| CfnInstanceProps.launchTemplate :=
         {| CfnInstanceProps.launchTemplateName := ec2.launchTemplateName wlLaunchTemplate;
            CfnInstanceProps.version := ec2.attrDefaultVersionNumber wlLaunchTemplate |};
       CfnInstanceProps.availabilityZone := wavelengthAZ |};
  (* Output public DNS attr (carrier IP) from wlz ec2 instance *)
  cdk.CfnOutput this "wlz-instance-publicDNS:" (ec2.attrPublicDnsName wlEc2Instance);;
  mret {| role := role; vpc := vpc; cagw := cagw; wlPrivateSubnet := wlPrivateSubnet;
          securityGroup := securityGroup; instanceProfile := instanceProfile;
          image := image; wlLaunchTemplate := wlLaunchTemplate;
          wlEc2Instance := wlEc2Instance |}.

(** [{ ...props, env: config.env }] *)
Definition with_env (props : option cdk.StackProps) (env : cdk.Environment)
  : cdk.StackProps :=
  {| cdk.description := props ≫= cdk.description;
     cdk.env := Some env;
     cdk.stackName := props ≫= cdk.stackName |}.

(** [new WlEc2Stack(scope, id, props)] *)
Definition WlEc2Stack (scope : cdk.App) (id : string) (props : option cdk.StackProps)
  : Result (WlEc2Stack_consts * cdk.Stack) :=
  WlEc2Stack_body (cdk.Stack_new scope id (with_env props (env config))).

(** The program: [new cdk.App()], [new WlEc2Stack(app, 'WlEc2Stack', {})],
    [app.synth()]. *)
Definition main (app : cdk.App) : Result cdk.Template :=
  match WlEc2Stack app "WlEc2Stack"
          (Some {| cdk.description := None; cdk.env := None; cdk.stackName := None |}) with
  | Ok (_, stack) => cdk.synth stack
  | Throw msg => Throw msg
  end.

End Declaration.

(** ** Reading a synthesized graph *)

(** The element declared at a path. *)
Fixpoint lookup_path (p : Path) (t : cdk.Template) : option CfnElement :=
  match t with
  | [] => None
  | (q, e) :: rest => if decide (q = p) then Some e else lookup_path p rest
  end.

(** The routes of the graph that belong to a route table. *)
Definition routes_of (routeTableId : Value) (t : cdk.Template)
  : list (Path * CfnRouteProps.t) :=
  flat_map (λ '(p, e),
    match e with
    | AWS_EC2_Route r =>
        if decide (CfnRouteProps.routeTableId r = routeTableId) then [(p, r)] else []
    | _ => []
    end) t.

Definition outputs (t : cdk.Template) : list (Path * Value) :=
  flat_map (λ '(p, e), match e with CFN_Output v => [(p, v)] | _ => [] end) t.

Definition instances (t : cdk.Template) : list (Path * CfnInstanceProps.t) :=
  flat_map (λ '(p, e), match e with AWS_EC2_Instance i => [(p, i)] | _ => [] end) t.

Definition securityGroups (t : cdk.Template) : list (Path * CfnSecurityGroupProps.t) :=
  flat_map (λ '(p, e), match e with AWS_EC2_SecurityGroup g => [(p, g)] | _ => [] end) t.

Definition instanceProfiles (t : cdk.Template) : list (Path * list Value) :=
  flat_map (λ '(p, e), match e with AWS_IAM_InstanceProfile r => [(p, r)] | _ => [] end) t.

Definition launchTemplates (t : cdk.Template) : list (Path * CfnLaunchTemplateProps.t) :=
  flat_map (λ '(p, e), match e with AWS_EC2_LaunchTemplate l => [(p, l)] | _ => [] end) t.

(** All subnets a Vpc object lists. *)
Definition subnets (v : IVpc.t) : list ISubnet.t :=
  (IVpc.publicSubnets v ++ IVpc.privateSubnets v ++ IVpc.isolatedSubnets v)%list.

(** *** References between elements

    Every token-valued property of an element, with the type of
    resource the provider expects behind it ([None]: any element). *)

Inductive Kind : Type :=
| K_Role | K_VPC | K_Subnet | K_RouteTable | K_SubnetRouteTableAssociation
| K_Route | K_InternetGateway | K_VPCGatewayAttachment | K_EIP | K_NatGateway
| K_CarrierGateway | K_SecurityGroup | K_InstanceProfile | K_LaunchTemplate
| K_Instance | K_Parameter | K_Output.

#[global] Instance Kind_eq_dec : EqDecision Kind.
Proof. solve_decision. Defined.

Definition kind_of (e : CfnElement) : Kind :=
  match e with
  | AWS_IAM_Role _ => K_Role
  | AWS_EC2_VPC _ => K_VPC
  | AWS_EC2_Subnet _ => K_Subnet
  | AWS_EC2_RouteTable _ => K_RouteTable
  | AWS_EC2_SubnetRouteTableAssociation _ _ => K_SubnetRouteTableAssociation
  | AWS_EC2_Route _ => K_Route
  | AWS_EC2_InternetGateway => K_InternetGateway
  | AWS_EC2_VPCGatewayAttachment _ _ => K_VPCGatewayAttachment
  | AWS_EC2_EIP _ => K_EIP
  | AWS_EC2_NatGateway _ _ => K_NatGateway
  | AWS_EC2_CarrierGateway _ => K_CarrierGateway
  | AWS_EC2_SecurityGroup _ => K_SecurityGroup
  | AWS_IAM_InstanceProfile _ => K_InstanceProfile
  | AWS_EC2_LaunchTemplate _ => K_LaunchTemplate
  | AWS_EC2_Instance _ => K_Instance
  | CFN_Parameter _ _ => K_Parameter
  | CFN_Output _ => K_Output
  end.

Definition opt_value (k : Kind) (o : option Value) : list (Value * option Kind) :=
  match o with
  | Some v => [(v, Some k)]
  | None => []
  end.

Definition typed_values (e : CfnElement) : list (Value * option Kind) :=
  match e with
  | AWS_IAM_Role _ | AWS_EC2_VPC _ | AWS_EC2_InternetGateway | AWS_EC2_EIP _
  | CFN_Parameter _ _ => []
  | AWS_EC2_Subnet p => [(CfnSubnetProps.vpcId p, Some K_VPC)]
  | AWS_EC2_RouteTable v => [(v, Some K_VPC)]
  | AWS_EC2_SubnetRouteTableAssociation sub table =>
      [(sub, Some K_Subnet); (table, Some K_RouteTable)]
  | AWS_EC2_Route r =>
      ((CfnRouteProps.routeTableId r, Some K_RouteTable)
         :: opt_value K_InternetGateway (CfnRouteProps.gatewayId r)
         ++ opt_value K_NatGateway (CfnRouteProps.natGatewayId r)
         ++ opt_value K_CarrierGateway (CfnRouteProps.carrierGatewayId r))%list
  | AWS_EC2_VPCGatewayAttachment v igw => [(v, Some K_VPC); (igw, Some K_InternetGateway)]
  | AWS_EC2_NatGateway sub alloc => [(sub, Some K_Subnet); (alloc, Some K_EIP)]
  | AWS_EC2_CarrierGateway v => [(v, Some K_VPC)]
  | AWS_EC2_SecurityGroup g => [(CfnSecurityGroupProps.vpcId g, Some K_VPC)]
  | AWS_IAM_InstanceProfile roles => (λ r, (r, Some K_Role)) <$> roles
  | AWS_EC2_LaunchTemplate l =>
      let d := CfnLaunchTemplateProps.launchTemplateData l in
      (flat_map (λ ni,
         (CfnLaunchTemplateProps.subnetId ni, Some K_Subnet)
           :: ((λ g, (g, Some K_SecurityGroup)) <$> CfnLaunchTemplateProps.groups ni))
         (CfnLaunchTemplateProps.networkInterfaces d)
       ++ [(CfnLaunchTemplateProps.imageId d, Some K_Parameter);
           (CfnLaunchTemplateProps.arn (CfnLaunchTemplateProps.iamInstanceProfile d),
            Some K_InstanceProfile)])%list
  | AWS_EC2_Instance i =>
      [(CfnInstanceProps.version (CfnInstanceProps.launchTemplate i), Some K_LaunchTemplate)]
  | CFN_Output v => [(v, None)]
  end.

Definition has_kind (k : option Kind) (e : CfnElement) : Prop :=
  match k with
  | Some k' => kind_of e = k'
  | None => True
  end.

#[global] Instance has_kind_dec k e : Decision (has_kind k e).
Proof. destruct k; simpl; apply _. Defined.

(** A value resolves among the elements [earlier] when it is a literal,
    or a token whose target is declared there with the expected type. *)
Definition resolves (earlier : cdk.Template) (vk : Value * option Kind) : bool :=
  match target_of vk.1 with
  | None => true
  | Some target =>
      match lookup_path target earlier with
      | Some e => bool_decide (has_kind vk.2 e)
      | None => false
      end
  end.

(** Executable check: every element only refers to elements declared
    before it. *)
Fixpoint well_scoped_from (earlier t : cdk.Template) : bool :=
  match t with
  | [] => true
  | (p, e) :: rest =>
      forallb (resolves earlier) (typed_values e)
      && well_scoped_from (earlier ++ [(p, e)])%list rest
  end.

Definition well_scoped (t : cdk.Template) : bool := well_scoped_from [] t.

(** No dangling reference: whatever token an element holds, its target
    is an element declared earlier in the graph, of the expected type. *)
Definition no_dangling (t : cdk.Template) : Prop :=
  ∀ (i : nat) p e v k target,
    t !! i = Some (p, e) →
    (v, k) ∈ typed_values e →
    target_of v = Some target →
    ∃ e', lookup_path target (take i t) = Some e' ∧ has_kind k e'.

(** The Vpc object as its constructor leaves it: the first two
    statements of the constructor, run on their own. *)
Definition configured_vpc (scope : cdk.App) (id : string) (props : cdk.StackProps)
  : Result IVpc.t :=
  match (iam.Role [] "wlz-ec2-demo-role" (iam.ServicePrincipal "ec2.amazonaws.com");;
         vpc ← ec2.Vpc [] "AppVPC" AppVPC_props;
         cdk.getVpc vpc) (cdk.Stack_new scope id props) with
  | Ok (v, _) => Ok v
  | Throw msg => Throw msg
  end.


(** The identifiers the declaration passes downstream, each with the
    element that uses it and the type of resource it must denote: the
    network id (carrier gateway, edge subnet), the edge subnet id and the
    security-group id (launch template), the role name (instance
    profile), the gateway reference (route), the launch-template version
    (instance). *)
Definition named_references (c : WlEc2Stack_consts) (v : IVpc.t) (g : ISecurityGroup.t)
  : list (Path * (Value * option Kind)) :=
  [ (["wlz-ec2-cagw"], (IVpc.vpcId v, Some K_VPC));
    (["wlz-private-subnet"; "Subnet"], (IVpc.vpcId v, Some K_VPC));
    (["wl-launch-template"], (ISubnet.subnetId (wlPrivateSubnet c), Some K_Subnet));
    (["wl-launch-template"], (ISecurityGroup.securityGroupId g, Some K_SecurityGroup));
    (["wlz-instance-profile"], (iam.roleName (role c), Some K_Role));
    (["wlz-route"], (ec2.ref (cagw c), Some K_CarrierGateway));
    (["wlz-ec2-instance"],
     (ec2.attrDefaultVersionNumber (wlLaunchTemplate c), Some K_LaunchTemplate)) ].

(** The element at [r.1] holds the token [r.2.1], and the target of that
    token is an element declared before it, of the type [r.2.2]. *)
Definition resolved_upstream (t : cdk.Template) (r : Path * (Value * option Kind)) : Prop :=
  ∃ (i : nat) e target e',
    t !! i = Some (r.1, e)
    ∧ r.2 ∈ typed_values e
    ∧ target_of r.2.1 = Some target
    ∧ lookup_path target (take i t) = Some e'
    ∧ has_kind r.2.2 e'.

Definition check_upstream (t : cdk.Template) (r : Path * (Value * option Kind)) : bool :=
  match list_find (λ x, x.1 = r.1) t with
  | Some (i, (_, e)) =>
      bool_decide (r.2 ∈ typed_values e)
      && bool_decide (is_Some (target_of r.2.1))
      && resolves (take i t) r.2
  | None => false
  end.

(** Two process environments used as examples: the account and region
    of the end-to-end property, alone and next to other variables. *)
Definition example_env : gmap string string :=
  {[ "AWS_ACCOUNT_NUMBER" := "111111111111"; "AWS_REGION" := "us-west-2" ]}.

Definition example_env_more : gmap string string :=
  <[ "HOME" := "/home/dev" ]> (<[ "AWS_PROFILE" := "default" ]> example_env).

Definition example_app : cdk.App :=
  {| cdk.context_availabilityZones := ["us-west-2a"; "us-west-2b"; "us-west-2c"] |}.

Definition empty_props : option cdk.StackProps :=
  Some {| cdk.description := None; cdk.env := None; cdk.stackName := None |}.

(** ** Further readings of the graph and of the toolkit's state *)

(** All routes of the graph, whatever their table. *)
Definition routes (t : cdk.Template) : list (Path * CfnRouteProps.t) :=
  flat_map (λ '(p, e), match e with AWS_EC2_Route r => [(p, r)] | _ => [] end) t.

(** The routes that lead to a NAT gateway or to an internet gateway. *)
Definition outbound_routes (t : cdk.Template) : list (Path * CfnRouteProps.t) :=
  filter (λ x, is_Some (CfnRouteProps.natGatewayId x.2)
               ∨ is_Some (CfnRouteProps.gatewayId x.2)) (routes t).




(** No address belongs to both blocks. *)
Definition disjoint_blocks (a b : CidrBlock.t) : Prop :=
  ∀ ip, in_block ip a → ¬ in_block ip b.

(** Every block handed out so far ends before the next free address. *)
Definition allocated_below (nb : NetworkBuilder.t) : Prop :=
  Forall (λ b, CidrBlock.maxIp b < NetworkBuilder.nextAvailableIp nb)
         (NetworkBuilder.subnetCidrs nb).

(** States and values used as examples. *)
Definition example_props : cdk.StackProps :=
  {| cdk.description := None; cdk.env := None; cdk.stackName := None |}.

Definition example_subnet (name : string) (zone block : string) : ISubnet.t :=
  {| ISubnet.node := [name];
     ISubnet.subnetId := Ref [name; "Subnet"];
     ISubnet.availabilityZone := zone;
     ISubnet.ipv4CidrBlock := block;
     ISubnet.routeTable := {| ISubnet.routeTableId := Ref [name; "RouteTable"] |} |}.

Definition example_vpc (privateSubnets : list ISubnet.t) : IVpc.t :=
  {| IVpc.vpcId := Ref ["Net"; "Resource"];
     IVpc.availabilityZones := ["zone-a"];
     IVpc.publicSubnets := [];
     IVpc.privateSubnets := privateSubnets;
     IVpc.isolatedSubnets := [] |}.

Definition example_vpc_state (privateSubnets : list ISubnet.t) : cdk.Stack :=
  cdk.setVpc ["Net"] (example_vpc privateSubnets)
    (cdk.pushElement ["Net"; "Resource"] (AWS_EC2_VPC "10.1.0.0/16")
       (cdk.Stack_new example_app "Example" example_props)).

Definition example_rule (description : string) : CfnSecurityGroupProps.IngressRule :=
  {| CfnSecurityGroupProps.cidrIp := "0.0.0.0/0";
     CfnSecurityGroupProps.ipProtocol := "tcp";
     CfnSecurityGroupProps.fromPort := Some 443;
     CfnSecurityGroupProps.toPort := Some 443;
     CfnSecurityGroupProps.description := description |}.

Definition example_group_state (rules : list CfnSecurityGroupProps.IngressRule) : cdk.Stack :=
  cdk.setSecurityGroup ["Group"]
    {| ISecurityGroup.securityGroupId := GetAtt ["Group"; "Resource"] "GroupId";
       ISecurityGroup.allowAllOutbound := true;
       ISecurityGroup.directIngressRules := rules;
       ISecurityGroup.directEgressRules := [ec2.ALLOW_ALL_RULE] |}
    (cdk.Stack_new example_app "Example" example_props).

Definition example_builder (blocks : list CidrBlock.t) (next : Z) : NetworkBuilder.t :=
  {| NetworkBuilder.networkCidr := CidrBlock.ofNum 167772160 16;
     NetworkBuilder.subnetCidrs := blocks;
     NetworkBuilder.nextAvailableIp := next |}.

(** * Properties *)

(** ** The executable checks are sound *)

Lemma well_scoped_from_sound earlier t :
  well_scoped_from earlier t = true →
  ∀ (i : nat) p e v k target,
    t !! i = Some (p, e) →
    (v, k) ∈ typed_values e →
    target_of v = Some target →
    ∃ e', lookup_path target (earlier ++ take i t)%list = Some e' ∧ has_kind k e'.
Proof.
  revert earlier. induction t as [|[q d] t IH]; intros earlier Hws i p e v k target Hi Hv Ht.
  - by destruct i.
  - simpl in Hws. apply andb_true_iff in Hws as [Hhere Hrest].
    destruct i as [|i]; simpl in Hi.
    + injection Hi as -> ->. rewrite take_0, app_nil_r.
      rewrite forallb_forall in Hhere.
      specialize (Hhere (v, k)). rewrite <- list_elem_of_In in Hhere.
      specialize (Hhere Hv). unfold resolves in Hhere. simpl in Hhere.
      rewrite Ht in Hhere.
      destruct (lookup_path target earlier) as [e'|]; [|done].
      exists e'. split; [done|]. by apply bool_decide_eq_true in Hhere.
    + destruct (IH _ Hrest i p e v k target Hi Hv Ht) as [e' [Hl Hk]].
      exists e'. split; [|done].
      by rewrite <- app_assoc in Hl.
Qed.

Lemma well_scoped_sound t : well_scoped t = true → no_dangling t.
Proof.
  intros Hws i p e v k target Hi Hv Ht.
  exact (well_scoped_from_sound [] t Hws i p e v k target Hi Hv Ht).
Qed.

(** A gateway registered for a zone is the one picked for that zone. *)
Lemma PrefSet_pick_add pref v ps :
  ec2.PrefSet.pick pref (ec2.PrefSet.add pref v ps) = Ok (v, ec2.PrefSet.add pref v ps).
Proof.
  unfold ec2.PrefSet.pick, ec2.PrefSet.add; simpl.
  rewrite lookup_insert_eq.
  by destruct (ec2.PrefSet.vals ps).
Qed.

(** Running a sequence: once the first statement has run, the rest runs
    in the state it leaves. *)
Lemma bind_run {A B} (m : cdk.M A) (f : A → cdk.M B) s a s' :
  m s = Ok (a, s') → (m ≫= f) s = f a s'.
Proof. intros H. unfold mbind, cdk.M_bind. by rewrite H. Qed.

(** With one zone, the public subnet's gateway serves the private
    subnet of that zone. *)
Lemma createNatGateways_single v pub priv s :
  IVpc.publicSubnets v = [pub] →
  IVpc.privateSubnets v = [priv] →
  ISubnet.availabilityZone pub = ISubnet.availabilityZone priv →
  ec2.createNatGateways v 1 s
  = (gateway ← ec2.addNatGateway pub; ec2.addDefaultNatRoute priv gateway) s.
Proof.
  intros Hpub Hpriv Hzone. unfold ec2.createNatGateways.
  rewrite Hpub, Hpriv. simpl take. simpl ec2.createGateways.
  unfold mbind, cdk.M_bind.
  destruct (ec2.addNatGateway pub s) as [[gateway s1]|msg]; [|done].
  unfold mret, cdk.M_ret. simpl ec2.configureSubnets.
  rewrite Hzone, PrefSet_pick_add.
  unfold mbind, cdk.M_bind, cdk.liftR, mret, cdk.M_ret.
  by destruct (ec2.addDefaultNatRoute priv gateway s1) as [[[] s2]|msg].
Qed.

(** ** Running the constructor

    A statement that compares no zone names is run by evaluation; the
    Vpc construct, which looks gateways up by zone, is run statement by
    statement. *)

Ltac run_here := vm_compute; reflexivity.

Ltac step := erewrite bind_run; [cbv beta | run_here].

Ltac eval_if :=
  match goal with
  | |- context [if ?c then _ else _] =>
      let c' := eval vm_compute in c in change c with c'; cbv iota
  end.

(** [new ec2.Vpc(this, 'AppVPC', ...)] with at least one zone: the
    statements of the constructor are run one by one. *)
Ltac run_Vpc :=
  unfold ec2.Vpc; do 6 step;
  erewrite bind_run; cycle 1;
  [ eval_if; do 3 step; eval_if;
    erewrite createNatGateways_single; cycle 1; [reflexivity..|];
    run_here
  | cbv beta; run_here ].

(** With at least one availability zone, the constructor returns. *)
Lemma WlEc2Stack_body_run (e : cdk.Environment) (z : string) (zs : list string)
    (id : string) (props : option cdk.StackProps) :
  { r | WlEc2Stack_body
          (cdk.Stack_new {| cdk.context_availabilityZones := z :: zs |} id (with_env props e))
        = Ok r }.
Proof.
  eexists. unfold WlEc2Stack_body.
  step.
  erewrite bind_run; cycle 1; [run_Vpc | cbv beta; run_here].
Defined.

(** So do its first two statements alone. *)
Lemma configured_vpc_run (e : cdk.Environment) (z : string) (zs : list string)
    (id : string) (props : option cdk.StackProps) :
  { v | configured_vpc {| cdk.context_availabilityZones := z :: zs |} id (with_env props e)
        = Ok v }.
Proof.
  eexists. unfold configured_vpc.
  erewrite bind_run; [cbv beta|run_here].
  erewrite bind_run; cycle 1; [run_Vpc | cbv beta; run_here].
Defined.

Lemma WlEc2Stack_run process_env z zs id props :
  WlEc2Stack process_env {| cdk.context_availabilityZones := z :: zs |} id props
  = Ok (proj1_sig (WlEc2Stack_body_run (env (config process_env)) z zs id props)).
Proof.
  unfold WlEc2Stack.
  exact (proj2_sig (WlEc2Stack_body_run (env (config process_env)) z zs id props)).
Qed.

Lemma main_run process_env z zs :
  main process_env {| cdk.context_availabilityZones := z :: zs |}
  = cdk.synth
      (proj1_sig (WlEc2Stack_body_run (env (config process_env)) z zs "WlEc2Stack"
         (Some {| cdk.description := None; cdk.env := None; cdk.stackName := None |}))).2.
Proof. unfold main. rewrite WlEc2Stack_run. by destruct (proj1_sig _). Qed.

Lemma configured_vpc_ok process_env z zs id props :
  configured_vpc {| cdk.context_availabilityZones := z :: zs |} id
    (with_env props (env (config process_env)))
  = Ok (proj1_sig (configured_vpc_run (env (config process_env)) z zs id props)).
Proof.
  exact (proj2_sig (configured_vpc_run (env (config process_env)) z zs id props)).
Qed.

(** Replaces the runs in the goal by their results, for any environment
    of the stack. *)
Ltac constructed :=
  rewrite ?WlEc2Stack_run, ?main_run, ?configured_vpc_ok;
  match goal with
  | |- context [proj1_sig (WlEc2Stack_body_run ?e ?z ?zs ?id ?props)] =>
      generalize e; intros ?
  end.

Lemma check_upstream_sound t r : check_upstream t r = true → resolved_upstream t r.
Proof.
  unfold check_upstream, resolved_upstream, resolves.
  destruct (list_find _ t) as [[i [p e]]|] eqn:Hfind; [|done].
  apply list_find_Some in Hfind as (Hi & Hp & _). simpl in Hp. subst p.
  intros H. apply andb_true_iff in H as [H Hres].
  apply andb_true_iff in H as [Hin Htok].
  apply bool_decide_eq_true in Hin. apply bool_decide_eq_true in Htok.
  destruct Htok as [target Htarget]. rewrite Htarget in Hres.
  destruct (lookup_path target (take i t)) as [e'|] eqn:Hl; [|done].
  apply bool_decide_eq_true in Hres.
  by exists i, e, target, e'.
Qed.

(** Address blocks: the boolean tests mean what they should. *)
Lemma containsCidr_in_block b other :
  CidrBlock.containsCidr b other = true →
  ∀ ip, in_block ip other → in_block ip b.
Proof.
  unfold CidrBlock.containsCidr, in_block. intros H ip.
  apply andb_true_iff in H as [H1 H2].
  apply Z.leb_le in H1. apply Z.leb_le in H2. lia.
Qed.

Lemma overlaps_false_disjoint a b :
  overlaps a b = false →
  ∀ ip, in_block ip a → ¬ in_block ip b.
Proof.
  unfold overlaps, in_block. intros H ip Ha Hb.
  apply andb_false_iff in H as [H|H]; apply Z.leb_gt in H; lia.
Qed.

(** ** The access-control descriptor *)

(** C1. The synthesized security group holds exactly three ingress
    rules: TCP port 22, TCP port 5000 and ICMP echo (type 8, any code),
    and the source of each is any IPv4 address, [0.0.0.0/0]. *)
Theorem C1_security_group_ingress (process_env : gmap string string)
    (z : string) (zs : list string) (id : string) (props : option cdk.StackProps) :
  ∃ c s t g r1 r2 r3,
    WlEc2Stack process_env {| cdk.context_availabilityZones := z :: zs |} id props = Ok (c, s)
    ∧ cdk.synth s = Ok t
    ∧ securityGroups t = [((securityGroup c ++ ["Resource"])%list, g)]
    ∧ CfnSecurityGroupProps.securityGroupIngress g = Resolved [r1; r2; r3]
    ∧ length [r1; r2; r3] = 3%nat
    ∧ (CfnSecurityGroupProps.ipProtocol r1, CfnSecurityGroupProps.fromPort r1,
       CfnSecurityGroupProps.toPort r1) = ("tcp", Some 22, Some 22)
    ∧ (CfnSecurityGroupProps.ipProtocol r2, CfnSecurityGroupProps.fromPort r2,
       CfnSecurityGroupProps.toPort r2) = ("tcp", Some 5000, Some 5000)
    ∧ (CfnSecurityGroupProps.ipProtocol r3, CfnSecurityGroupProps.fromPort r3,
       CfnSecurityGroupProps.toPort r3) = ("icmp", Some 8, Some (-1))
    ∧ Forall (λ r, CfnSecurityGroupProps.cidrIp r = ec2.Peer.cidrIp ec2.Peer.anyIpv4
                   ∧ CfnSecurityGroupProps.cidrIp r = "0.0.0.0/0") [r1; r2; r3].
Proof.
  constructed.
  eexists _, _, _, _, _, _, _.
  split; [run_here|]. split; [run_here|].
  split; [run_here|]. split; [run_here|].
  repeat split; repeat constructor.
Qed.

(** C9. The security group is built with [allowAllOutbound] set: its one
    egress rule allows every protocol to every IPv4 address. *)
Theorem C9_allow_all_outbound (process_env : gmap string string)
    (z : string) (zs : list string) (id : string) (props : option cdk.StackProps) :
  ∃ c s t o g rule,
    WlEc2Stack process_env {| cdk.context_availabilityZones := z :: zs |} id props = Ok (c, s)
    ∧ cdk.synth s = Ok t
    ∧ cdk.securityGroups s !! securityGroup c = Some o
    ∧ ISecurityGroup.allowAllOutbound o = true
    ∧ securityGroups t = [((securityGroup c ++ ["Resource"])%list, g)]
    ∧ CfnSecurityGroupProps.securityGroupEgress g = Resolved [rule]
    ∧ rule = ec2.ALLOW_ALL_RULE
    ∧ CfnSecurityGroupProps.egress_cidrIp rule = "0.0.0.0/0"
    ∧ CfnSecurityGroupProps.egress_ipProtocol rule = ec2.Port.protocolName ec2.Port.ALL
    ∧ CfnSecurityGroupProps.egress_fromPort rule = None
    ∧ CfnSecurityGroupProps.egress_toPort rule = None.
Proof.
  constructed.
  eexists _, _, _, _, _, _.
  split; [run_here|]. split; [run_here|].
  split; [run_here|]. split; [reflexivity|].
  split; [run_here|]. split; [run_here|].
  repeat split.
Qed.

(** ** The edge-connectivity descriptor *)

(** C2. Exactly one route of the synthesized graph belongs to the route
    table of the edge subnet: the declared [wlz-route], whose destination
    is [0.0.0.0/0] and whose carrier gateway is the reference of the
    carrier gateway declared before it. *)
Theorem C2_edge_route (process_env : gmap string string)
    (z : string) (zs : list string) (id : string) (props : option cdk.StackProps) :
  ∃ c s t r gw vpcId,
    WlEc2Stack process_env {| cdk.context_availabilityZones := z :: zs |} id props = Ok (c, s)
    ∧ cdk.synth s = Ok t
    ∧ routes_of (ISubnet.routeTableId (ISubnet.routeTable (wlPrivateSubnet c))) t
      = [(["wlz-route"], r)]
    ∧ length (routes_of (ISubnet.routeTableId (ISubnet.routeTable (wlPrivateSubnet c))) t)
      = 1%nat
    ∧ CfnRouteProps.destinationCidrBlock r = "0.0.0.0/0"
    ∧ CfnRouteProps.carrierGatewayId r = Some (ec2.ref (cagw c))
    ∧ CfnRouteProps.gatewayId r = None
    ∧ CfnRouteProps.natGatewayId r = None
    ∧ ec2.ref (cagw c) = Ref gw
    ∧ lookup_path gw t = Some (AWS_EC2_CarrierGateway vpcId).
Proof.
  constructed.
  eexists _, _, _, _, _, _.
  split; [run_here|]. split; [run_here|].
  split; [run_here|].
  repeat split.
Qed.

(** ** The identity descriptor *)

(** C6. The synthesized instance profile lists exactly one role, the
    name of the role the declaration creates first; that role is in the
    graph, ahead of the profile. *)
Theorem C6_instance_profile_role (process_env : gmap string string)
    (z : string) (zs : list string) (id : string) (props : option cdk.StackProps) :
  ∃ c s t profile roleResource (i j : nat),
    WlEc2Stack process_env {| cdk.context_availabilityZones := z :: zs |} id props = Ok (c, s)
    ∧ cdk.synth s = Ok t
    ∧ instanceProfiles t = [(profile, [iam.roleName (role c)])]
    ∧ iam.ref (instanceProfile c) = Ref profile
    ∧ iam.roleName (role c) = Ref roleResource
    ∧ t !! i = Some (roleResource, AWS_IAM_Role (iam.ServicePrincipal "ec2.amazonaws.com"))
    ∧ t !! j = Some (profile, AWS_IAM_InstanceProfile [iam.roleName (role c)])
    ∧ (i < j)%nat.
Proof.
  constructed.
  eexists _, _, _, _, _, 0%nat, 20%nat.
  split; [run_here|]. split; [run_here|].
  split; [run_here|].
  repeat split. lia.
Qed.

(** ** The launch descriptor *)

(** C3. The one network interface of the launch template requests a
    carrier address and names the edge subnet; the subnets the Vpc was
    configured with, public and private, have other ids. *)
Theorem C3_launch_template_interface (process_env : gmap string string)
    (z : string) (zs : list string) (id : string) (props : option cdk.StackProps) :
  ∃ c s t lt ni v0,
    WlEc2Stack process_env {| cdk.context_availabilityZones := z :: zs |} id props = Ok (c, s)
    ∧ cdk.synth s = Ok t
    ∧ launchTemplates t = [(["wl-launch-template"], lt)]
    ∧ CfnLaunchTemplateProps.networkInterfaces (CfnLaunchTemplateProps.launchTemplateData lt)
      = [ni]
    ∧ CfnLaunchTemplateProps.associateCarrierIpAddress ni = Some true
    ∧ CfnLaunchTemplateProps.subnetId ni = ISubnet.subnetId (wlPrivateSubnet c)
    ∧ configured_vpc {| cdk.context_availabilityZones := z :: zs |} id
        (with_env props (env (config process_env))) = Ok v0
    ∧ length (IVpc.publicSubnets v0) = 1%nat
    ∧ length (IVpc.privateSubnets v0) = 1%nat
    ∧ Forall (λ sub, CfnLaunchTemplateProps.subnetId ni ≠ ISubnet.subnetId sub) (subnets v0).
Proof.
  constructed.
  eexists _, _, _, _, _, _.
  split; [run_here|]. split; [run_here|].
  split; [run_here|]. split; [run_here|].
  split; [reflexivity|]. split; [reflexivity|].
  split; [run_here|].
  split; [reflexivity|]. split; [reflexivity|].
  repeat constructor; discriminate.
Qed.

(** ** The network descriptor *)

(** C5. When the constructor is done, the Vpc object lists the subnets
    it was configured with and the edge subnet, appended last to its
    private subnets: one subnet more than configured. *)
Theorem C5_subnet_collection (process_env : gmap string string)
    (z : string) (zs : list string) (id : string) (props : option cdk.StackProps) :
  ∃ c s v0 v1 pub priv,
    WlEc2Stack process_env {| cdk.context_availabilityZones := z :: zs |} id props = Ok (c, s)
    ∧ configured_vpc {| cdk.context_availabilityZones := z :: zs |} id
        (with_env props (env (config process_env))) = Ok v0
    ∧ cdk.vpcs s !! vpc c = Some v1
    ∧ IVpc.publicSubnets v0 = [pub]
    ∧ IVpc.privateSubnets v0 = [priv]
    ∧ IVpc.isolatedSubnets v0 = []
    ∧ IVpc.publicSubnets v1 = [pub]
    ∧ IVpc.privateSubnets v1 = [priv; wlPrivateSubnet c]
    ∧ IVpc.isolatedSubnets v1 = []
    ∧ IVpc.privateSubnets v1 = (IVpc.privateSubnets v0 ++ [wlPrivateSubnet c])%list
    ∧ length (subnets v0)
      = (length (ec2.subnetConfiguration AppVPC_props) * ec2.maxAzs AppVPC_props)%nat
    ∧ length (subnets v1) = (length (subnets v0) + 1)%nat
    ∧ wlPrivateSubnet c ∉ subnets v0.
Proof.
  constructed.
  eexists _, _, _, _, _, _.
  split; [run_here|]. split; [run_here|]. split; [run_here|].
  repeat (split; [reflexivity|]).
  intros H. repeat (apply elem_of_cons in H as [H|H]; [discriminate H|]).
  by apply elem_of_nil in H.
Qed.

(** C10. The edge subnet does not map public addresses on launch; its
    block [10.0.2.0/26] lies inside the block [10.0.0.0/16] of the Vpc
    and shares no address with the /24 blocks allocated to the
    configured public and private subnets. *)
Theorem C10_edge_subnet_block (process_env : gmap string string)
    (z : string) (zs : list string) (id : string) (props : option cdk.StackProps) :
  ∃ c s t v0 edge edgeProps vpcBlock edgeBlock,
    WlEc2Stack process_env {| cdk.context_availabilityZones := z :: zs |} id props = Ok (c, s)
    ∧ cdk.synth s = Ok t
    ∧ ISubnet.subnetId (wlPrivateSubnet c) = Ref edge
    ∧ lookup_path edge t = Some (AWS_EC2_Subnet edgeProps)
    ∧ CfnSubnetProps.mapPublicIpOnLaunch edgeProps = Some false
    ∧ CfnSubnetProps.cidrBlock edgeProps = "10.0.2.0/26"
    ∧ ec2.cidr AppVPC_props = "10.0.0.0/16"
    ∧ CidrBlock.ofString (ec2.cidr AppVPC_props) = Ok vpcBlock
    ∧ CidrBlock.ofString (CfnSubnetProps.cidrBlock edgeProps) = Ok edgeBlock
    ∧ (∀ ip, in_block ip edgeBlock → in_block ip vpcBlock)
    ∧ configured_vpc {| cdk.context_availabilityZones := z :: zs |} id
        (with_env props (env (config process_env))) = Ok v0
    ∧ length (IVpc.publicSubnets v0) = 1%nat
    ∧ length (IVpc.privateSubnets v0) = 1%nat
    ∧ Forall (λ sub, ∃ b,
                CidrBlock.ofString (ISubnet.ipv4CidrBlock sub) = Ok b
                ∧ CidrBlock.mask b = 24
                ∧ ∀ ip, in_block ip b → ¬ in_block ip edgeBlock) (subnets v0).
Proof.
  constructed.
  eexists _, _, _, _, _, _, _, _.
  split; [run_here|]. split; [run_here|].
  split; [reflexivity|]. split; [reflexivity|].
  split; [reflexivity|]. split; [reflexivity|]. split; [reflexivity|].
  split; [run_here|]. split; [run_here|].
  split; [by apply containsCidr_in_block|].
  split; [run_here|].
  split; [reflexivity|]. split; [reflexivity|].
  repeat constructor;
    (eexists; split; [run_here|]; split; [reflexivity|];
     by apply overlaps_false_disjoint).
Qed.

(** ** The resource graph as a whole *)

(** C8. No dangling reference.  Every token held by an element of the
    synthesized graph points at an element declared before it, of the
    expected type; in particular the network id, the edge subnet id, the
    security-group id, the role name, the gateway reference and the
    launch-template version are identifiers of elements constructed
    upstream, and the launch-template name the instance carries is the
    name declared on the launch template. *)
Theorem C8_no_dangling_references (process_env : gmap string string)
    (z : string) (zs : list string) (id : string) (props : option cdk.StackProps) :
  ∃ c s t v g lt inst,
    WlEc2Stack process_env {| cdk.context_availabilityZones := z :: zs |} id props = Ok (c, s)
    ∧ cdk.synth s = Ok t
    ∧ cdk.vpcs s !! vpc c = Some v
    ∧ cdk.securityGroups s !! securityGroup c = Some g
    ∧ no_dangling t
    ∧ NoDup t.*1
    ∧ Forall (resolved_upstream t) (named_references c v g)
    ∧ launchTemplates t = [(["wl-launch-template"], lt)]
    ∧ instances t = [(["wlz-ec2-instance"], inst)]
    ∧ CfnInstanceProps.launchTemplateName (CfnInstanceProps.launchTemplate inst)
      = CfnLaunchTemplateProps.launchTemplateName lt
    ∧ CfnInstanceProps.launchTemplateName (CfnInstanceProps.launchTemplate inst)
      = ec2.launchTemplateName (wlLaunchTemplate c)
    ∧ CfnInstanceProps.version (CfnInstanceProps.launchTemplate inst)
      = ec2.attrDefaultVersionNumber (wlLaunchTemplate c).
Proof.
  constructed.
  eexists _, _, _, _, _, _, _.
  split; [run_here|]. split; [run_here|].
  split; [run_here|]. split; [run_here|].
  split; [apply well_scoped_sound; run_here|].
  split; [apply (bool_decide_unpack _); run_here|].
  split.
  { repeat (apply Forall_cons; split; [apply check_upstream_sound; run_here|]).
    constructor. }
  split; [run_here|]. split; [run_here|].
  repeat split.
Qed.

(** ** The instance and output descriptors *)

(** C4. End to end: with account [111111111111] and region [us-west-2]
    in the process environment, the program synthesizes a graph whose
    one instance sits in the configured edge zone
    [us-west-2-wl1-sfo-wlz-1] and whose one output is the public DNS
    name attribute of that instance. *)
Theorem C4_end_to_end (process_env : gmap string string) (z : string) (zs : list string) :
  process_env !! "AWS_ACCOUNT_NUMBER" = Some "111111111111" →
  process_env !! "AWS_REGION" = Some "us-west-2" →
  ∃ c s t inst,
    WlEc2Stack process_env {| cdk.context_availabilityZones := z :: zs |}
      "WlEc2Stack" empty_props = Ok (c, s)
    ∧ cdk.synth s = Ok t
    ∧ main process_env {| cdk.context_availabilityZones := z :: zs |} = Ok t
    ∧ cdk.env (cdk.props s)
      = Some {| cdk.account := Some "111111111111"; cdk.region := Some "us-west-2" |}
    ∧ instances t = [(["wlz-ec2-instance"], inst)]
    ∧ ec2.instance_ref (wlEc2Instance c) = Ref ["wlz-ec2-instance"]
    ∧ CfnInstanceProps.availabilityZone inst = wavelengthAZ
    ∧ wavelengthAZ = "us-west-2-wl1-sfo-wlz-1"
    ∧ outputs t = [(["wlz-instance-publicDNS:"], ec2.attrPublicDnsName (wlEc2Instance c))]
    ∧ ec2.attrPublicDnsName (wlEc2Instance c) = GetAtt ["wlz-ec2-instance"] "PublicDnsName".
Proof.
  intros Haccount Hregion.
  assert (env (config process_env)
          = {| cdk.account := Some "111111111111"; cdk.region := Some "us-west-2" |}) as He.
  { unfold config; simpl. by rewrite Haccount, Hregion. }
  unfold empty_props.
  rewrite WlEc2Stack_run, main_run, He.
  eexists _, _, _, _.
  split; [run_here|]. split; [run_here|]. split; [run_here|].
  repeat split.
Qed.

Lemma C4_end_to_end_witness :
  example_env !! "AWS_ACCOUNT_NUMBER" = Some "111111111111"
  ∧ example_env !! "AWS_REGION" = Some "us-west-2"
  ∧ ∃ c s t inst,
      WlEc2Stack example_env {| cdk.context_availabilityZones := ["us-west-2a"; "us-west-2b"] |}
        "WlEc2Stack" empty_props = Ok (c, s)
      ∧ cdk.synth s = Ok t
      ∧ main example_env {| cdk.context_availabilityZones := ["us-west-2a"; "us-west-2b"] |}
        = Ok t
      ∧ cdk.env (cdk.props s)
        = Some {| cdk.account := Some "111111111111"; cdk.region := Some "us-west-2" |}
      ∧ instances t = [(["wlz-ec2-instance"], inst)]
      ∧ ec2.instance_ref (wlEc2Instance c) = Ref ["wlz-ec2-instance"]
      ∧ CfnInstanceProps.availabilityZone inst = wavelengthAZ
      ∧ wavelengthAZ = "us-west-2-wl1-sfo-wlz-1"
      ∧ outputs t = [(["wlz-instance-publicDNS:"], ec2.attrPublicDnsName (wlEc2Instance c))]
      ∧ ec2.attrPublicDnsName (wlEc2Instance c) = GetAtt ["wlz-ec2-instance"] "PublicDnsName".
Proof.
  split; [vm_compute; reflexivity|]. split; [vm_compute; reflexivity|].
  apply (C4_end_to_end example_env "us-west-2a" ["us-west-2b"]); vm_compute; reflexivity.
Defined.

(** ** Process inputs *)

(** C7. The process environment enters the declaration through two
    variables only, the account number and the region, which become the
    environment of the stack: two process environments that agree on
    them yield the same stack and the same graph.  The edge zone and the
    key-pair name are the constants [us-west-2-wl1-sfo-wlz-1] and
    [wl-cdk-demo-1] whatever the inputs. *)
Theorem C7_process_inputs (process_env process_env' : gmap string string)
    (app : cdk.App) (z : string) (zs : list string)
    (id : string) (props : option cdk.StackProps) :
  process_env !! "AWS_ACCOUNT_NUMBER" = process_env' !! "AWS_ACCOUNT_NUMBER" →
  process_env !! "AWS_REGION" = process_env' !! "AWS_REGION" →
  WlEc2Stack process_env app id props = WlEc2Stack process_env' app id props
  ∧ main process_env app = main process_env' app
  ∧ env (config process_env)
    = {| cdk.account := process_env !! "AWS_ACCOUNT_NUMBER";
         cdk.region := process_env !! "AWS_REGION" |}
  ∧ ∃ c s t lt inst,
      WlEc2Stack process_env {| cdk.context_availabilityZones := z :: zs |} id props
      = Ok (c, s)
      ∧ cdk.synth s = Ok t
      ∧ cdk.env (cdk.props s) = Some (env (config process_env))
      ∧ wavelengthAZ = "us-west-2-wl1-sfo-wlz-1"
      ∧ ISubnet.availabilityZone (wlPrivateSubnet c) = wavelengthAZ
      ∧ instances t = [(["wlz-ec2-instance"], inst)]
      ∧ CfnInstanceProps.availabilityZone inst = wavelengthAZ
      ∧ launchTemplates t = [(["wl-launch-template"], lt)]
      ∧ CfnLaunchTemplateProps.keyName (CfnLaunchTemplateProps.launchTemplateData lt)
        = "wl-cdk-demo-1".
Proof.
  intros Haccount Hregion.
  assert (config process_env = config process_env') as Hconfig.
  { unfold config. by rewrite Haccount, Hregion. }
  split; [unfold WlEc2Stack; by rewrite Hconfig|].
  split; [unfold main, WlEc2Stack; by rewrite Hconfig|].
  split; [reflexivity|].
  clear Hconfig Haccount Hregion.
  constructed.
  eexists _, _, _, _, _.
  split; [run_here|]. split; [run_here|].
  split; [reflexivity|]. split; [reflexivity|]. split; [reflexivity|].
  split; [run_here|]. split; [reflexivity|].
  split; [run_here|]. reflexivity.
Qed.

Lemma C7_process_inputs_witness :
  example_env_more !! "AWS_ACCOUNT_NUMBER" = example_env !! "AWS_ACCOUNT_NUMBER"
  ∧ example_env_more !! "AWS_REGION" = example_env !! "AWS_REGION"
  ∧ example_env_more ≠ example_env
  ∧ WlEc2Stack example_env_more example_app "WlEc2Stack" empty_props
    = WlEc2Stack example_env example_app "WlEc2Stack" empty_props
  ∧ main example_env_more example_app = main example_env example_app
  ∧ env (config example_env_more)
    = {| cdk.account := example_env_more !! "AWS_ACCOUNT_NUMBER";
         cdk.region := example_env_more !! "AWS_REGION" |}
  ∧ ∃ c s t lt inst,
      WlEc2Stack example_env_more
        {| cdk.context_availabilityZones := ["us-west-2a"; "us-west-2b"; "us-west-2c"] |}
        "WlEc2Stack" empty_props
      = Ok (c, s)
      ∧ cdk.synth s = Ok t
      ∧ cdk.env (cdk.props s) = Some (env (config example_env_more))
      ∧ wavelengthAZ = "us-west-2-wl1-sfo-wlz-1"
      ∧ ISubnet.availabilityZone (wlPrivateSubnet c) = wavelengthAZ
      ∧ instances t = [(["wlz-ec2-instance"], inst)]
      ∧ CfnInstanceProps.availabilityZone inst = wavelengthAZ
      ∧ launchTemplates t = [(["wl-launch-template"], lt)]
      ∧ CfnLaunchTemplateProps.keyName (CfnLaunchTemplateProps.launchTemplateData lt)
        = "wl-cdk-demo-1".
Proof.
  split; [vm_compute; reflexivity|]. split; [vm_compute; reflexivity|].
  split.
  { intros H. apply (f_equal (λ m : gmap string string, m !! "HOME")) in H.
    vm_compute in H. discriminate H. }
  apply (C7_process_inputs example_env_more example_env example_app
           "us-west-2a" ["us-west-2b"; "us-west-2c"] "WlEc2Stack" empty_props);
    vm_compute; reflexivity.
Defined.

(** The quantification over a non-empty list of zones is needed: with no
    zone at all the Vpc construct cannot place the NAT gateways its
    private subnets call for, and the constructor throws. *)
Remark WlEc2Stack_no_zone (process_env : gmap string string)
    (id : string) (props : option cdk.StackProps) :
  ∃ msg, WlEc2Stack process_env {| cdk.context_availabilityZones := [] |} id props
         = Throw msg.
Proof.
  unfold WlEc2Stack. generalize (env (config process_env)); intros e.
  eexists. run_here.
Qed.

(** * Further properties of the declaration *)

(** ** What the parameters can and cannot change *)

(** X1. Whatever properties the caller passes, the environment of the
    stack is the one read from the process environment: an [env] in the
    properties is discarded, the description and the stack name are
    kept, and neither the constants bound by the constructor nor the
    synthesized graph depend on the properties. *)
Theorem X1_props_env_overridden (process_env : gmap string string)
    (z : string) (zs : list string) (id : string) (props props' : option cdk.StackProps) :
  ∃ c s s' t,
    WlEc2Stack process_env {| cdk.context_availabilityZones := z :: zs |} id props = Ok (c, s)
    ∧ WlEc2Stack process_env {| cdk.context_availabilityZones := z :: zs |} id props'
      = Ok (c, s')
    ∧ cdk.synth s = Ok t
    ∧ cdk.synth s' = Ok t
    ∧ cdk.env (cdk.props s) = Some (env (config process_env))
    ∧ cdk.description (cdk.props s) = props ≫= cdk.description
    ∧ cdk.stackName (cdk.props s) = props ≫= cdk.stackName.
Proof.
  rewrite !WlEc2Stack_run. generalize (env (config process_env)); intros e.
  eexists _, _, _, _.
  split; [run_here|]. split; [run_here|].
  split; [run_here|]. split; [run_here|].
  repeat split.
Qed.


(** X3. Only the first availability zone is used.  The Vpc keeps one
    zone, puts its public and its private subnet there, and the zones
    that follow change neither the constants nor the graph; the edge
    subnet sits in the Wavelength zone whatever the zones are. *)
Theorem X3_first_zone_only (process_env : gmap string string)
    (z : string) (zs zs' : list string) (id : string) (props : option cdk.StackProps) :
  ∃ c s s' t v pub priv,
    WlEc2Stack process_env {| cdk.context_availabilityZones := z :: zs |} id props = Ok (c, s)
    ∧ WlEc2Stack process_env {| cdk.context_availabilityZones := z :: zs' |} id props
      = Ok (c, s')
    ∧ cdk.synth s = Ok t
    ∧ cdk.synth s' = Ok t
    ∧ cdk.vpcs s !! vpc c = Some v
    ∧ cdk.vpcs s' !! vpc c = Some v
    ∧ IVpc.availabilityZones v = [z]
    ∧ IVpc.publicSubnets v = [pub]
    ∧ IVpc.privateSubnets v = [priv; wlPrivateSubnet c]
    ∧ ISubnet.availabilityZone pub = z
    ∧ ISubnet.availabilityZone priv = z
    ∧ ISubnet.availabilityZone (wlPrivateSubnet c) = wavelengthAZ.
Proof.
  rewrite !WlEc2Stack_run. generalize (env (config process_env)); intros e.
  eexists _, _, _, _, _, _, _.
  split; [run_here|]. split; [run_here|].
  split; [run_here|]. split; [run_here|].
  split; [run_here|]. split; [run_here|].
  repeat split.
Qed.

(** X9. With no availability zone the constructor throws, and so does
    the program: no graph is synthesized. *)
Theorem X9_no_zone_throws (process_env : gmap string string)
    (id : string) (props : option cdk.StackProps) :
  ∃ msg,
    WlEc2Stack process_env {| cdk.context_availabilityZones := [] |} id props = Throw msg
    ∧ main process_env {| cdk.context_availabilityZones := [] |} = Throw msg.
Proof.
  unfold main, WlEc2Stack. generalize (env (config process_env)); intros e.
  eexists. split; run_here.
Qed.

(** ** How the descriptors are wired together *)

(** X4. One network.  The carrier gateway, the edge subnet, its route
    table and the security group all belong to the Vpc of the
    declaration; the edge subnet is associated with the route table that
    [wlz-route] extends; the one interface of the launch template is the
    primary one, deleted with the instance, placed in that subnet and in
    that security group only; and the instance is pinned to the zone of
    that subnet. *)
Theorem X4_one_network (process_env : gmap string string)
    (z : string) (zs : list string) (id : string) (props : option cdk.StackProps) :
  ∃ c s t v network edge edgeProps table group g lt ni inst,
    WlEc2Stack process_env {| cdk.context_availabilityZones := z :: zs |} id props = Ok (c, s)
    ∧ cdk.synth s = Ok t
    ∧ cdk.vpcs s !! vpc c = Some v
    ∧ IVpc.vpcId v = Ref network
    ∧ lookup_path network t = Some (AWS_EC2_VPC (ec2.cidr AppVPC_props))
    ∧ lookup_path ["wlz-ec2-cagw"] t = Some (AWS_EC2_CarrierGateway (Ref network))
    ∧ ISubnet.subnetId (wlPrivateSubnet c) = Ref edge
    ∧ lookup_path edge t = Some (AWS_EC2_Subnet edgeProps)
    ∧ CfnSubnetProps.vpcId edgeProps = Ref network
    ∧ ISubnet.routeTableId (ISubnet.routeTable (wlPrivateSubnet c)) = Ref table
    ∧ lookup_path table t = Some (AWS_EC2_RouteTable (Ref network))
    ∧ lookup_path (ISubnet.node (wlPrivateSubnet c) ++ ["RouteTableAssociation"])%list t
      = Some (AWS_EC2_SubnetRouteTableAssociation (Ref edge) (Ref table))
    ∧ securityGroups t = [(group, g)]
    ∧ CfnSecurityGroupProps.vpcId g = Ref network
    ∧ CfnSecurityGroupProps.groupName g = Some "wlz-sg"
    ∧ launchTemplates t = [(["wl-launch-template"], lt)]
    ∧ CfnLaunchTemplateProps.networkInterfaces (CfnLaunchTemplateProps.launchTemplateData lt)
      = [ni]
    ∧ CfnLaunchTemplateProps.deviceIndex ni = 0
    ∧ CfnLaunchTemplateProps.deleteOnTermination ni = true
    ∧ CfnLaunchTemplateProps.subnetId ni = Ref edge
    ∧ CfnLaunchTemplateProps.groups ni = [GetAtt group "GroupId"]
    ∧ instances t = [(["wlz-ec2-instance"], inst)]
    ∧ CfnInstanceProps.availabilityZone inst = CfnSubnetProps.availabilityZone edgeProps.
Proof.
  constructed.
  eexists _, _, _, _, _, _, _, _, _, _, _, _, _.
  split; [run_here|]. split; [run_here|]. split; [run_here|].
  split; [reflexivity|]. split; [reflexivity|]. split; [reflexivity|].
  split; [reflexivity|]. split; [reflexivity|]. split; [reflexivity|].
  split; [reflexivity|]. split; [reflexivity|]. split; [reflexivity|].
  split; [run_here|]. split; [reflexivity|]. split; [reflexivity|].
  split; [run_here|]. split; [reflexivity|].
  split; [reflexivity|]. split; [reflexivity|]. split; [reflexivity|].
  split; [reflexivity|]. split; [run_here|]. reflexivity.
Qed.



(** X8. The edge subnet gets no way out but the carrier gateway.  Of the
    three routes of the graph, the two that lead to the internet gateway
    or to the NAT gateway belong to the route tables of the configured
    public and private subnets; listing the edge subnet among the
    private subnets of the Vpc gives it no NAT route. *)
Theorem X8_edge_subnet_no_nat_route (process_env : gmap string string)
    (z : string) (zs : list string) (id : string) (props : option cdk.StackProps) :
  ∃ c s t v pub priv r1 r2 p1 p2,
    WlEc2Stack process_env {| cdk.context_availabilityZones := z :: zs |} id props = Ok (c, s)
    ∧ cdk.synth s = Ok t
    ∧ cdk.vpcs s !! vpc c = Some v
    ∧ IVpc.publicSubnets v = [pub]
    ∧ IVpc.privateSubnets v = [priv; wlPrivateSubnet c]
    ∧ length (routes t) = 3%nat
    ∧ outbound_routes t = [(p1, r1); (p2, r2)]
    ∧ CfnRouteProps.routeTableId r1 = ISubnet.routeTableId (ISubnet.routeTable pub)
    ∧ is_Some (CfnRouteProps.gatewayId r1)
    ∧ CfnRouteProps.routeTableId r2 = ISubnet.routeTableId (ISubnet.routeTable priv)
    ∧ is_Some (CfnRouteProps.natGatewayId r2)
    ∧ Forall (λ x, CfnRouteProps.routeTableId x.2
                   ≠ ISubnet.routeTableId (ISubnet.routeTable (wlPrivateSubnet c)))
        (outbound_routes t).
Proof.
  constructed.
  eexists _, _, _, _, _, _, _, _, _, _.
  split; [run_here|]. split; [run_here|]. split; [run_here|].
  split; [reflexivity|]. split; [reflexivity|]. split; [reflexivity|].
  split; [run_here|].
  split; [reflexivity|]. split; [by eexists|].
  split; [reflexivity|]. split; [by eexists|].
  repeat constructor; discriminate.
Qed.

(** ** The operations the declaration calls *)

Lemma resolveAll_setVpc p v s l :
  cdk.resolveAll (cdk.setVpc p v s) l = cdk.resolveAll s l.
Proof.
  induction l as [|[q e] l IH]; [done|].
  simpl. rewrite IH. by destruct e.
Qed.

(** X7. Appending a subnet to the private subnets of a Vpc object, as
    the declaration does with the edge subnet, changes that list of that
    object and nothing else: no construct and no element is added, no
    other object is touched, and the graph synthesized from the stack is
    the same as before. *)
Theorem X7_push_adds_no_element (vpc : Path) (subnet : ISubnet.t) (s s' : cdk.Stack) :
  vpc_privateSubnets_push vpc subnet s = Ok ((), s') →
  cdk.elements s' = cdk.elements s
  ∧ cdk.nodes s' = cdk.nodes s
  ∧ cdk.securityGroups s' = cdk.securityGroups s
  ∧ cdk.synth s' = cdk.synth s
  ∧ (∀ other, other ≠ vpc → cdk.vpcs s' !! other = cdk.vpcs s !! other)
  ∧ ∃ v v',
      cdk.vpcs s !! vpc = Some v
      ∧ cdk.vpcs s' !! vpc = Some v'
      ∧ IVpc.privateSubnets v' = (IVpc.privateSubnets v ++ [subnet])%list
      ∧ IVpc.publicSubnets v' = IVpc.publicSubnets v
      ∧ IVpc.isolatedSubnets v' = IVpc.isolatedSubnets v
      ∧ IVpc.vpcId v' = IVpc.vpcId v.
Proof.
  unfold vpc_privateSubnets_push, cdk.getVpc, cdk.modify, mbind, cdk.M_bind.
  destruct (cdk.vpcs s !! vpc) as [v|] eqn:Hv; [|done].
  intros [= <-].
  split; [done|]. split; [done|]. split; [done|].
  split; [unfold cdk.synth; apply resolveAll_setVpc|].
  split; [intros other Hother; simpl; by rewrite lookup_insert_ne|].
  eexists v, _. split; [done|].
  split; [simpl; apply lookup_insert_eq|]. done.
Qed.

Lemma X7_push_adds_no_element_witness :
  let subnet := example_subnet "Edge" "zone-w" "10.1.2.0/26" in
  let s := example_vpc_state [example_subnet "Private" "zone-a" "10.1.1.0/24"] in
  let s' := example_vpc_state [example_subnet "Private" "zone-a" "10.1.1.0/24"; subnet] in
  vpc_privateSubnets_push ["Net"] subnet s = Ok ((), s')
  ∧ cdk.elements s' = cdk.elements s
  ∧ cdk.nodes s' = cdk.nodes s
  ∧ cdk.securityGroups s' = cdk.securityGroups s
  ∧ cdk.synth s' = cdk.synth s
  ∧ (∀ other, other ≠ ["Net"] → cdk.vpcs s' !! other = cdk.vpcs s !! other)
  ∧ ∃ v v',
      cdk.vpcs s !! ["Net"] = Some v
      ∧ cdk.vpcs s' !! ["Net"] = Some v'
      ∧ IVpc.privateSubnets v' = (IVpc.privateSubnets v ++ [subnet])%list
      ∧ IVpc.publicSubnets v' = IVpc.publicSubnets v
      ∧ IVpc.isolatedSubnets v' = IVpc.isolatedSubnets v
      ∧ IVpc.vpcId v' = IVpc.vpcId v.
Proof.
  intros subnet s s'.
  assert (vpc_privateSubnets_push ["Net"] subnet s = Ok ((), s')) as H.
  { vm_compute; reflexivity. }
  split; [exact H|].
  exact (X7_push_adds_no_element ["Net"] subnet s s' H).
Defined.

Lemma ingressRulesEqual_same_key a b :
  CfnSecurityGroupProps.cidrIp a = CfnSecurityGroupProps.cidrIp b →
  CfnSecurityGroupProps.fromPort a = CfnSecurityGroupProps.fromPort b →
  CfnSecurityGroupProps.toPort a = CfnSecurityGroupProps.toPort b →
  CfnSecurityGroupProps.ipProtocol a = CfnSecurityGroupProps.ipProtocol b →
  ec2.ingressRulesEqual a b = true.
Proof.
  intros H1 H2 H3 H4. unfold ec2.ingressRulesEqual.
  by rewrite !bool_decide_eq_true_2.
Qed.

(** X10. Adding an ingress rule is idempotent.  Once a rule for a peer
    and a port has been added to a security group, adding a rule for the
    same peer and port again, under any description, leaves the stack as
    it is: the first description stays. *)
Theorem X10_addIngressRule_idempotent (securityGroup : Path) (peer : ec2.Peer.IPeer)
    (connection : ec2.Port.t) (description description' : option string)
    (s s' : cdk.Stack) :
  ec2.addIngressRule securityGroup peer connection description s = Ok ((), s') →
  ec2.addIngressRule securityGroup peer connection description' s' = Ok ((), s').
Proof.
  unfold ec2.addIngressRule, cdk.getSecurityGroup, cdk.modify, mbind, cdk.M_bind.
  destruct (cdk.securityGroups s !! securityGroup) as [g|] eqn:Hg; [|done].
  destruct (existsb _ (ISecurityGroup.directIngressRules g)) eqn:Hfound.
  - intros [= <-]. rewrite Hg.
    apply existsb_exists in Hfound as (r & Hin & Hr).
    assert (existsb
              (λ r0, ec2.ingressRulesEqual r0
                 {| CfnSecurityGroupProps.cidrIp := ec2.Peer.cidrIp peer;
                    CfnSecurityGroupProps.ipProtocol :=
                      ec2.Port.protocolName (ec2.Port.protocol connection);
                    CfnSecurityGroupProps.fromPort := ec2.Port.fromPort connection;
                    CfnSecurityGroupProps.toPort := ec2.Port.toPort connection;
                    CfnSecurityGroupProps.description :=
                      default ("from " +:+ ec2.Peer.uniqueId peer +:+ ":"
                               +:+ ec2.Port.stringRepresentation connection) description' |})
              (ISecurityGroup.directIngressRules g) = true) as ->; [|done].
    apply existsb_exists. exists r. split; [done|].
    unfold ec2.ingressRulesEqual in *. exact Hr.
  - intros [= <-]. simpl. rewrite lookup_insert_eq. simpl.
    rewrite existsb_app. simpl.
    erewrite ingressRulesEqual_same_key; [|reflexivity..].
    by rewrite orb_true_r.
Qed.

Lemma X10_addIngressRule_idempotent_witness :
  ec2.addIngressRule ["Group"] ec2.Peer.anyIpv4 (ec2.Port.tcp 443) (Some "first")
    (example_group_state [])
  = Ok ((), example_group_state [example_rule "first"])
  ∧ ec2.addIngressRule ["Group"] ec2.Peer.anyIpv4 (ec2.Port.tcp 443) (Some "second")
      (example_group_state [example_rule "first"])
    = Ok ((), example_group_state [example_rule "first"]).
Proof.
  assert (ec2.addIngressRule ["Group"] ec2.Peer.anyIpv4 (ec2.Port.tcp 443) (Some "first")
            (example_group_state [])
          = Ok ((), example_group_state [example_rule "first"])) as H.
  { vm_compute; reflexivity. }
  split; [exact H|].
  exact (X10_addIngressRule_idempotent _ _ _ _ (Some "second") _ _ H).
Defined.

(** Address arithmetic: a block of a mask up to 32 has a positive size,
    and [minIp] is the first multiple of that size at or after the
    address the block was built from. *)
Lemma calculateNetsize_pos mask : mask ≤ 32 → 0 < CidrBlock.calculateNetsize mask.
Proof. intros H. unfold CidrBlock.calculateNetsize. apply Z.pow_pos_nonneg; lia. Qed.

Lemma minIp_ofNum_bounds ip mask :
  mask ≤ 32 →
  ip ≤ CidrBlock.minIp (CidrBlock.ofNum ip mask)
     < ip + CidrBlock.calculateNetsize mask.
Proof.
  intros H. pose proof (calculateNetsize_pos mask H) as Hn.
  unfold CidrBlock.minIp, CidrBlock.ofNum; simpl.
  pose proof (Z.mod_pos_bound (ip + CidrBlock.calculateNetsize mask - 1)
                (CidrBlock.calculateNetsize mask) Hn).
  lia.
Qed.

Lemma minIp_ofNum_aligned ip mask :
  mask ≤ 32 →
  CidrBlock.minIp (CidrBlock.ofNum ip mask) mod CidrBlock.calculateNetsize mask = 0.
Proof.
  intros H. pose proof (calculateNetsize_pos mask H) as Hn.
  unfold CidrBlock.minIp, CidrBlock.ofNum; simpl.
  rewrite Zminus_mod_idemp_r, Z.sub_diag. by apply Z.mod_0_l, Z.neq_sym, Z.lt_neq.
Qed.

Lemma minIp_ofNum_of_aligned ip mask :
  mask ≤ 32 →
  ip mod CidrBlock.calculateNetsize mask = 0 →
  CidrBlock.minIp (CidrBlock.ofNum ip mask) = ip.
Proof.
  intros H Hip. pose proof (calculateNetsize_pos mask H) as Hn.
  unfold CidrBlock.minIp, CidrBlock.ofNum; simpl.
  replace (ip + CidrBlock.calculateNetsize mask - 1)
    with (ip + (CidrBlock.calculateNetsize mask - 1)) by lia.
  rewrite Zplus_mod, Hip, Z.add_0_l, Z.mod_mod by lia.
  rewrite Z.mod_small by lia. lia.
Qed.

(** X12. Blocks are aligned.  A block built from an address and a mask
    starts at the first multiple of its size at or after the address (at
    the address itself when it is already aligned), spans exactly that
    many addresses, and the block after it starts right behind it. *)
Theorem X12_block_alignment (ip mask : Z) :
  0 ≤ ip →
  0 ≤ mask ≤ 32 →
  let b := CidrBlock.ofNum ip mask in
  let size := CidrBlock.calculateNetsize mask in
  ip ≤ CidrBlock.minIp b < ip + size
  ∧ CidrBlock.minIp b mod size = 0
  ∧ CidrBlock.maxIp b - CidrBlock.minIp b + 1 = size
  ∧ (ip mod size = 0 → CidrBlock.minIp b = ip)
  ∧ CidrBlock.mask (CidrBlock.nextBlock b) = mask
  ∧ CidrBlock.minIp (CidrBlock.nextBlock b) = CidrBlock.maxIp b + 1.
Proof.
  intros Hip [Hm0 Hm] b size.
  pose proof (calculateNetsize_pos mask Hm) as Hn.
  split; [by apply minIp_ofNum_bounds|].
  split; [by apply minIp_ofNum_aligned|].
  split; [unfold CidrBlock.maxIp; subst b size; simpl; lia|].
  split; [by apply minIp_ofNum_of_aligned|].
  split; [done|].
  unfold CidrBlock.nextBlock. subst b. simpl CidrBlock.mask.
  apply minIp_ofNum_of_aligned; [done|].
  unfold CidrBlock.maxIp. simpl CidrBlock.mask.
  replace (CidrBlock.minIp (CidrBlock.ofNum ip mask) + CidrBlock.calculateNetsize mask - 1 + 1)
    with (CidrBlock.minIp (CidrBlock.ofNum ip mask) + 1 * CidrBlock.calculateNetsize mask)
    by lia.
  rewrite Z.mod_add by lia. by apply minIp_ofNum_aligned.
Qed.

Lemma X12_block_alignment_witness :
  0 ≤ 167772700
  ∧ 0 ≤ 26 ≤ 32
  ∧ (167772700 ≤ CidrBlock.minIp (CidrBlock.ofNum 167772700 26)
       < 167772700 + CidrBlock.calculateNetsize 26
     ∧ CidrBlock.minIp (CidrBlock.ofNum 167772700 26) mod CidrBlock.calculateNetsize 26 = 0
     ∧ CidrBlock.maxIp (CidrBlock.ofNum 167772700 26)
       - CidrBlock.minIp (CidrBlock.ofNum 167772700 26) + 1
       = CidrBlock.calculateNetsize 26
     ∧ (167772700 mod CidrBlock.calculateNetsize 26 = 0
        → CidrBlock.minIp (CidrBlock.ofNum 167772700 26) = 167772700)
     ∧ CidrBlock.mask (CidrBlock.nextBlock (CidrBlock.ofNum 167772700 26)) = 26
     ∧ CidrBlock.minIp (CidrBlock.nextBlock (CidrBlock.ofNum 167772700 26))
       = CidrBlock.maxIp (CidrBlock.ofNum 167772700 26) + 1).
Proof.
  split; [lia|]. split; [lia|].
  apply (X12_block_alignment 167772700 26); lia.
Defined.

(** X11. The allocator never hands out a block twice.  When every block
    handed out so far ends before the next free address, a successful
    [addSubnet] returns the text of a new block of the mask asked for,
    between /16 and /28, that starts at or after the next free address
    and so shares no address with any earlier block; the next free
    address moves right behind the new block, and the same holds again
    for the builder returned. *)
Theorem X11_allocator_no_overlap (mask : Z) (nb nb' : NetworkBuilder.t) (c : string) :
  allocated_below nb →
  NetworkBuilder.addSubnet mask nb = Ok (c, nb') →
  ∃ b,
    NetworkBuilder.subnetCidrs nb' = (NetworkBuilder.subnetCidrs nb ++ [b])%list
    ∧ CidrBlock.cidr b = Ok c
    ∧ CidrBlock.mask b = mask
    ∧ 16 ≤ mask ≤ 28
    ∧ NetworkBuilder.networkCidr nb' = NetworkBuilder.networkCidr nb
    ∧ NetworkBuilder.nextAvailableIp nb ≤ CidrBlock.minIp b
    ∧ NetworkBuilder.nextAvailableIp nb' = CidrBlock.maxIp b + 1
    ∧ Forall (λ earlier, disjoint_blocks earlier b) (NetworkBuilder.subnetCidrs nb)
    ∧ allocated_below nb'.
Proof.
  intros Hbelow. unfold NetworkBuilder.addSubnet.
  destruct ((mask <? 16) || (28 <? mask)) eqn:Hmask; [done|].
  apply orb_false_iff in Hmask as [H16 H28].
  apply Z.ltb_ge in H16. apply Z.ltb_ge in H28.
  destruct (CidrBlock.maxIp (NetworkBuilder.networkCidr nb) <? _); [done|].
  destruct (CidrBlock.cidr _) as [c'|] eqn:Hc; [|done].
  intros [= <- <-].
  assert (mask ≤ 32) as Hm by lia.
  pose proof (calculateNetsize_pos mask Hm) as Hn.
  pose proof (minIp_ofNum_bounds (NetworkBuilder.nextAvailableIp nb) mask Hm) as Hmin.
  set (b := CidrBlock.ofNum (NetworkBuilder.nextAvailableIp nb) mask) in *.
  assert (CidrBlock.minIp (CidrBlock.nextBlock b) = CidrBlock.maxIp b + 1) as Hnext.
  { unfold CidrBlock.nextBlock. apply minIp_ofNum_of_aligned; [done|].
    unfold CidrBlock.maxIp. subst b. simpl CidrBlock.mask.
    replace (CidrBlock.minIp (CidrBlock.ofNum (NetworkBuilder.nextAvailableIp nb) mask)
             + CidrBlock.calculateNetsize mask - 1 + 1)
      with (CidrBlock.minIp (CidrBlock.ofNum (NetworkBuilder.nextAvailableIp nb) mask)
            + 1 * CidrBlock.calculateNetsize mask) by lia.
    rewrite Z.mod_add by lia. by apply minIp_ofNum_aligned. }
  assert (CidrBlock.minIp b ≤ CidrBlock.maxIp b) as Hspan.
  { unfold CidrBlock.maxIp. subst b. simpl CidrBlock.mask. lia. }
  exists b. simpl.
  split; [done|]. split; [done|]. split; [done|]. split; [lia|]. split; [done|].
  split; [lia|]. split; [done|].
  split.
  - eapply Forall_impl; [exact Hbelow|].
    intros earlier Hend ip [_ Hhi] [Hlo _]. simpl in Hend. lia.
  - unfold allocated_below. simpl. rewrite Hnext.
    apply Forall_app. split.
    + eapply Forall_impl; [exact Hbelow|].
      intros earlier Hend. simpl in Hend. lia.
    + repeat constructor. lia.
Qed.

Lemma X11_allocator_no_overlap_witness :
  allocated_below (example_builder [CidrBlock.ofNum 167772160 24] 167772416)
  ∧ NetworkBuilder.addSubnet 24 (example_builder [CidrBlock.ofNum 167772160 24] 167772416)
    = Ok ("10.0.1.0/24",
          example_builder [CidrBlock.ofNum 167772160 24; CidrBlock.ofNum 167772416 24]
            167772672)
  ∧ ∃ b,
      NetworkBuilder.subnetCidrs
        (example_builder [CidrBlock.ofNum 167772160 24; CidrBlock.ofNum 167772416 24]
           167772672)
      = (NetworkBuilder.subnetCidrs
           (example_builder [CidrBlock.ofNum 167772160 24] 167772416) ++ [b])%list
      ∧ CidrBlock.cidr b = Ok "10.0.1.0/24"
      ∧ CidrBlock.mask b = 24
      ∧ 16 ≤ 24 ≤ 28
      ∧ NetworkBuilder.networkCidr
          (example_builder [CidrBlock.ofNum 167772160 24; CidrBlock.ofNum 167772416 24]
             167772672)
        = NetworkBuilder.networkCidr
            (example_builder [CidrBlock.ofNum 167772160 24] 167772416)
      ∧ NetworkBuilder.nextAvailableIp
          (example_builder [CidrBlock.ofNum 167772160 24] 167772416)
        ≤ CidrBlock.minIp b
      ∧ NetworkBuilder.nextAvailableIp
          (example_builder [CidrBlock.ofNum 167772160 24; CidrBlock.ofNum 167772416 24]
             167772672)
        = CidrBlock.maxIp b + 1
      ∧ Forall (λ earlier, disjoint_blocks earlier b)
          (NetworkBuilder.subnetCidrs
             (example_builder [CidrBlock.ofNum 167772160 24] 167772416))
      ∧ allocated_below
          (example_builder [CidrBlock.ofNum 167772160 24; CidrBlock.ofNum 167772416 24]
             167772672).
Proof.
  assert (allocated_below (example_builder [CidrBlock.ofNum 167772160 24] 167772416)) as H1.
  { repeat constructor. }
  assert (NetworkBuilder.addSubnet 24
            (example_builder [CidrBlock.ofNum 167772160 24] 167772416)
          = Ok ("10.0.1.0/24",
                example_builder [CidrBlock.ofNum 167772160 24; CidrBlock.ofNum 167772416 24]
                  167772672)) as H2.
  { vm_compute; reflexivity. }
  split; [exact H1|]. split; [exact H2|].
  exact (X11_allocator_no_overlap _ _ _ _ H1 H2).
Defined.
